(** * appMVCv2: a shallow embedding of the MVC example and its properties

    The development follows the layout of [appMVCv2.py]: utilities, the
    model (TextManager and SessionManager over two shelve databases), the
    router and the controller, the two views, and the module-level wiring.

    Python values are an inductive type, dictionaries are stdpp finite maps,
    SessionModel instances live on a heap so that the object stored under
    ["SESSION"] in a request dictionary is shared with its caller, and code
    that can raise threads a state-and-exception monad. *)

From Stdlib Require Import ZArith String Ascii List DecimalString.
From stdpp Require Import base option list gmap strings fin_maps.

Local Open Scope string_scope.
Local Open Scope Z_scope.

(** ** Python values *)

(** Address of a SessionModel instance. *)
Definition loc := nat.

(** The values that occur in request, cookie and view-context
    dictionaries.  [TextModel title content] is an instance of the class
    TextModel (its two attributes are never reassigned, so it is kept as a
    value); [VSession r] is a reference to a SessionModel instance. *)
#[warnings="-register-all"]
Inductive value :=
| VNone
| VInt (z : Z)
| VStr (s : string)
| VList (l : list value)
| VTuple (l : list value)
| TextModel (title content : value)
| VSession (r : loc).

(** Python truth value: None, 0, the empty string and the empty list or
    tuple are false; instances of the two model classes define neither
    [__nonzero__] nor [__len__] and are true. *)
Definition truthy (v : value) : bool :=
  match v with
  | VNone => false
  | VInt z => negb (z =? 0)
  | VStr s => negb (String.eqb s EmptyString)
  | VList l | VTuple l => match l with [] => false | _ => true end
  | TextModel _ _ => true
  | VSession _ => true
  end.

(** ** Outcomes and the state-and-exception monad *)

Inductive exn := KeyError | TypeError | AttributeError.

(** [Unmodelled] marks the places where the interpreter's behaviour depends
    on the platform or on object addresses (the text of [repr] for a list or
    an instance, a database key that is not a string); no statement below
    says anything about the program there. *)
Inductive result (A : Type) :=
| Ok (a : A)
| Raise (e : exn)
| Unmodelled.
Arguments Ok {A} a.
Arguments Raise {A} e.
Arguments Unmodelled {A}.

(** A computation over a mutable state [S]: the state it leaves (also when
    it raises) and its outcome. *)
Definition M (S A : Type) : Type := S -> S * result A.

Definition ret {S A} (a : A) : M S A := fun s => (s, Ok a).

Definition bind {S A B} (c : M S A) (k : A -> M S B) : M S B :=
  fun s =>
    match c s with
    | (s', Ok a) => k a s'
    | (s', Raise e) => (s', Raise e)
    | (s', Unmodelled) => (s', Unmodelled)
    end.

Definition lift {S A} (r : result A) : M S A := fun s => (s, r).
Definition gets {S A} (f : S -> A) : M S A := fun s => (s, Ok (f s)).
Definition modify {S} (f : S -> S) : M S unit := fun s => (f s, Ok tt).
Definition reads {S A} (f : S -> result A) : M S A := fun s => (s, f s).

Declare Scope py_scope.
Delimit Scope py_scope with py.
Notation "'do' x <- c ; k" := (bind c (fun x => k))
  (at level 10, x name, c at level 100, k at level 200) : py_scope.
Local Open Scope py_scope.

(** ** Utilities *)

Definition http_status (code : Z) : string :=
  if code =? 200 then "200 OK" else "404 Not Found".

(** [dict_.get(key)]: the value, or None. *)
Definition dict_get (dict_ : gmap string value) (key : string) : value :=
  default VNone (dict_ !! key).

(** [dict_[key]]: the value, or KeyError. *)
Definition dict_getitem (dict_ : gmap string value) (key : string)
  : result value :=
  match dict_ !! key with
  | Some v => Ok v
  | None => Raise KeyError
  end.

Definition take_one_or_None (dict_ : gmap string value) (key : string)
  : value :=
  let val := dict_get dict_ key in
  match val with
  | VList (x :: _) | VTuple (x :: _) => x
  | _ => val
  end.

(** ** 1. Model *)

(** *** The shelve databases

    A shelf opened by [shelve.open]: [live] is what the open handle reads
    and writes, [durable] is what the file holds; [sync] writes the one to
    the other.  Keys of a shelf are strings.  A lookup with None finds
    nothing, which is what a request without a title or without a session
    cookie relies on; what a key of another type does depends on the dbm
    backend. *)
Record shelf (V : Type) := Shelf {
  live : gmap string V;
  durable : gmap string V
}.
Arguments Shelf {V} live durable.
Arguments live {V} s.
Arguments durable {V} s.

(** [shelve.open(file)] on a file holding [file]. *)
Definition shelf_open {V} (file : gmap string V) : shelf V :=
  Shelf file file.

(** [db.get(key)] *)
Definition shelf_get {V} (db : shelf V) (key : value) : result (option V) :=
  match key with
  | VStr k => Ok (live db !! k)
  | VNone => Ok None
  | _ => Unmodelled
  end.

(** [key in db] *)
Definition shelf_contains {V} (db : shelf V) (key : value) : result bool :=
  match key with
  | VStr k => Ok (bool_decide (is_Some (live db !! k)))
  | VNone => Ok false
  | _ => Unmodelled
  end.

(** [db[key] = v] *)
Definition shelf_setitem {V} (db : shelf V) (key : value) (v : V)
  : result (shelf V) :=
  match key with
  | VStr k => Ok (Shelf (<[k := v]> (live db)) (durable db))
  | _ => Unmodelled
  end.

(** [del db[key]] *)
Definition shelf_delitem {V} (db : shelf V) (key : value)
  : result (shelf V) :=
  match key with
  | VStr k =>
      match live db !! k with
      | Some _ => Ok (Shelf (delete k (live db)) (durable db))
      | None => Raise KeyError
      end
  | _ => Unmodelled
  end.

(** [db.items()], in the order of the store. *)
Definition shelf_items {V} (db : shelf V) : list (string * V) :=
  map_to_list (live db).

(** [db.sync()] *)
Definition shelf_sync {V} (db : shelf V) : shelf V :=
  Shelf (live db) (live db).

(** *** Sessions and the state of the process *)

(** The attributes of a SessionModel instance. *)
Record SessionModel := {
  session_id : string;
  amount_of_viewed_pages : Z
}.

(** What the program reads and writes: the shelf of [text_manager]
    (main.db), the shelf of the session manager (sessions.db), the
    SessionModel instances, and the values [str(uuid.uuid4())] returns, in
    the order of the calls. *)
Record world := World {
  docs : shelf value;
  sessions : shelf SessionModel;
  heap : gmap loc SessionModel;
  uuids : nat -> string;
  uuid_calls : nat
}.

Definition set_docs (d : shelf value) (w : world) : world :=
  World d (sessions w) (heap w) (uuids w) (uuid_calls w).
Definition set_sessions (d : shelf SessionModel) (w : world) : world :=
  World (docs w) d (heap w) (uuids w) (uuid_calls w).
Definition set_heap (h : gmap loc SessionModel) (w : world) : world :=
  World (docs w) (sessions w) h (uuids w) (uuid_calls w).

(** [str(uuid.uuid4())] *)
Definition uuid4 : M world string :=
  fun w =>
    (World (docs w) (sessions w) (heap w) (uuids w) (S (uuid_calls w)),
     Ok (uuids w (uuid_calls w))).

(** A new instance holding [s], at an address not in use. *)
Definition alloc (s : SessionModel) : M world loc :=
  fun w =>
    let r := fresh (dom (heap w)) in
    (set_heap (<[r := s]> (heap w)) w, Ok r).

(** The attributes of the instance at [r]. *)
Definition deref (r : loc) : M world SessionModel :=
  fun w =>
    (w, match heap w !! r with Some s => Ok s | None => Unmodelled end).

(** [SessionModel()] *)
Definition SessionModel_init : M world loc :=
  do id <- uuid4 ;
  alloc {| session_id := id; amount_of_viewed_pages := 0 |}.

(** *** TextManager *)

Module TextManager.

Definition get_by_title (title : value) : M world value :=
  do content <- reads (fun w => shelf_get (docs w) title) ;
  let content := default VNone content in
  ret (if truthy content then TextModel title content else VNone).

Definition get_all : M world (list value) :=
  do items <- gets (fun w => shelf_items (docs w)) ;
  ret (map (fun '(title, content) => TextModel (VStr title) content) items).

Definition create (title content : value) : M world bool :=
  do present <- reads (fun w => shelf_contains (docs w) title) ;
  if (present : bool) then ret false
  else
    do db <- reads (fun w => shelf_setitem (docs w) title content) ;
    do _ <- modify (set_docs db) ;
    do _ <- modify (fun w => set_docs (shelf_sync (docs w)) w) ;
    ret true.

Definition delete (title : value) : M world bool :=
  do present <- reads (fun w => shelf_contains (docs w) title) ;
  if negb present then ret false
  else
    do db <- reads (fun w => shelf_delitem (docs w) title) ;
    do _ <- modify (set_docs db) ;
    do _ <- modify (fun w => set_docs (shelf_sync (docs w)) w) ;
    ret true.

End TextManager.

(** *** SessionManager *)

Module SessionManager.

(** [SessionManager()]: opens sessions.db again. *)
Definition init : M world unit :=
  modify (fun w => set_sessions (shelf_open (durable (sessions w))) w).

(** The shelf unpickles what it finds into a new instance; an instance
    is true, so only a missing entry takes the branch that creates. *)
Definition get_or_create (sid : value) : M world loc :=
  do found <- reads (fun w => shelf_get (sessions w) sid) ;
  match found with
  | Some stored => alloc stored
  | None =>
      do session <- SessionModel_init ;
      do s <- deref session ;
      do db <- reads (fun w =>
                  shelf_setitem (sessions w) (VStr (session_id s)) s) ;
      do _ <- modify (set_sessions db) ;
      do _ <- modify (fun w => set_sessions (shelf_sync (sessions w)) w) ;
      ret session
  end.

Definition update (session : loc) : M world unit :=
  do s <- deref session ;
  do db <- reads (fun w =>
              shelf_setitem (sessions w) (VStr (session_id s)) s) ;
  do _ <- modify (set_sessions db) ;
  modify (fun w => set_sessions (shelf_sync (sessions w)) w).

End SessionManager.

(** ** 3. View *)

(** A view renders a context dictionary, which it may also write to. *)
Class View := { render : M (gmap string value) string }.

Definition dq : string := String "034"%char EmptyString.
Definition nl : string := String "010"%char EmptyString.

(** [sep.join(l)] *)
Fixpoint join (sep : string) (l : list string) : string :=
  match l with
  | [] => EmptyString
  | [x] => x
  | x :: rest => x +:+ sep +:+ join sep rest
  end.

(** What [str.format] writes for a field without a format spec: a str as
    it is, [str(v)] for None and for an int. *)
Definition py_format (v : value) : result string :=
  match v with
  | VStr s => Ok s
  | VNone => Ok "None"
  | VInt z => Ok (NilZero.string_of_int (Z.to_int z))
  | _ => Unmodelled
  end.

(** [v.title] inside a format field.  A str has a method of that name,
    whose text carries an address. *)
Definition attr_title (v : value) : result value :=
  match v with
  | TextModel title _ => Ok title
  | VStr _ => Unmodelled
  | _ => Raise AttributeError
  end.

(** [v.content] inside a format field. *)
Definition attr_content (v : value) : result value :=
  match v with
  | TextModel _ content => Ok content
  | _ => Raise AttributeError
  end.

(** [for text in v] *)
Definition iterate (v : value) : result (list value) :=
  match v with
  | VList l | VTuple l => Ok l
  | VStr _ => Unmodelled
  | _ => Raise TypeError
  end.

Definition bind_result {A B} (r : result A) (k : A -> result B) : result B :=
  match r with
  | Ok a => k a
  | Raise e => Raise e
  | Unmodelled => Unmodelled
  end.

Fixpoint mapM {A B} (f : A -> result B) (l : list A) : result (list B) :=
  match l with
  | [] => Ok []
  | x :: rest =>
      bind_result (f x) (fun y =>
      bind_result (mapM f rest) (fun ys => Ok (y :: ys)))
  end.

(** ["<li>{text.title}</li>".format(text=text)] *)
Definition format_li (text : value) : result string :=
  bind_result (attr_title text) (fun title =>
  bind_result (py_format title) (fun s =>
  Ok ("<li>" +:+ s +:+ "</li>"))).

(** The template of the current text, formatted with [current]. *)
Definition format_current (current : value) : result string :=
  bind_result (attr_title current) (fun title =>
  bind_result (py_format title) (fun t =>
  bind_result (attr_content current) (fun content =>
  bind_result (py_format content) (fun c =>
  Ok (nl +:+ "            <h1>" +:+ t +:+ "</h1>" +:+ nl +:+
      "            " +:+ c +:+ nl +:+
      "            "))))).

(** The template of the error, formatted with [error]. *)
Definition format_error (error : value) : result string :=
  bind_result (py_format error) (fun e =>
  Ok (nl +:+ "            <h1 style=" +:+ dq +:+ "color:red;" +:+ dq +:+ ">"
      +:+ e +:+ "</h1>" +:+ nl +:+
      "            ")).

(** The page template [t], cut at its three fields. *)
Definition t_head : string :=
  join nl [
    EmptyString;
    "        <form method=" +:+ dq +:+ "GET" +:+ dq +:+ ">";
    "            <input type=text name=title placeholder=" +:+ dq +:+
      "Text title" +:+ dq +:+ " />";
    "            <input type=submit value=read />";
    "        </form>";
    "        <form method=" +:+ dq +:+ "GET" +:+ dq +:+ " action=" +:+ dq +:+
      "/text/add" +:+ dq +:+ ">";
    "            <input type=text name=title placeholder=" +:+ dq +:+
      "Text title" +:+ dq +:+ " /> <br>";
    "            <textarea name=content placeholder=" +:+ dq +:+
      "Text content!" +:+ dq +:+ " ></textarea> <br>";
    "            <input type=submit value=write/rewrite />";
    "        </form>";
    "        <div>" ].

Definition t_error_content : string := "</div>" +:+ nl +:+ "        <div>".
Definition t_content_titles : string := "</div>" +:+ nl +:+ "        <ul>".
Definition t_tail : string := "</ul>" +:+ nl +:+ "        ".

(** [t.format] with the context as its keyword arguments: the fields are
    error, content and titles, in this order. *)
Definition format_t (context : gmap string value) : result string :=
  bind_result (dict_getitem context "error") (fun error =>
  bind_result (py_format error) (fun e =>
  bind_result (dict_getitem context "content") (fun content =>
  bind_result (py_format content) (fun c =>
  bind_result (dict_getitem context "titles") (fun titles =>
  bind_result (py_format titles) (fun ts =>
  Ok (t_head +:+ e +:+ t_error_content +:+ c +:+ t_content_titles +:+ ts
      +:+ t_tail))))))).

(** [context[key]] and [context[key] = v] on the dictionary a view is
    given. *)
Definition getitem (key : string) : M (gmap string value) value :=
  reads (fun context => dict_getitem context key).
Definition setitem (key : string) (v : value) : M (gmap string value) unit :=
  modify (fun context => <[key := v]> context).

Definition TextIndexView_render : M (gmap string value) string :=
  do all <- getitem "all" ;
  do texts <- lift (iterate all) ;
  do lis <- lift (mapM format_li texts) ;
  do _ <- setitem "titles" (VStr (join nl lis)) ;
  do current <- getitem "current" ;
  do _ <- (if truthy current then
             do current <- getitem "current" ;
             do s <- lift (format_current current) ;
             setitem "content" (VStr s)
           else setitem "content" (VStr "What do you want read?")) ;
  do error <- getitem "error" ;
  do _ <- (if truthy error then
             do error <- getitem "error" ;
             do s <- lift (format_error error) ;
             setitem "error" (VStr s)
           else ret tt) ;
  reads format_t.

(** The page RedirectView returns. *)
Definition redirect_page : string :=
  "<meta http-equiv=" +:+ dq +:+ "refresh" +:+ dq +:+ " content=" +:+ dq
  +:+ "0; url=/text" +:+ dq +:+ " />".

Definition RedirectView_render : M (gmap string value) string :=
  ret redirect_page.

Instance TextIndexView : View := {| render := TextIndexView_render |}.
Instance RedirectView : View := {| render := RedirectView_render |}.

(** ** 2. Controller and Router *)

Abbreviation request := (gmap string value) (only parsing).
Abbreviation response := (Z * string)%type (only parsing).
Abbreviation handler := (request -> M world response) (only parsing).

Module Router.

Record t := { _paths : gmap string handler }.

Definition init : t := {| _paths := ∅ |}.

Definition default_response : M world response :=
  ret (404, "Nooo 404!").

Definition route (self : t) (request_path : string)
    (request_get_data : request) : M world response :=
  match _paths self !! request_path with
  | Some callback => callback request_get_data
  | None => default_response
  end.

Definition register (self : t) (path : string) (callback : handler) : t :=
  {| _paths := <[path := callback]> (_paths self) |}.

End Router.

(** [v.amount_of_viewed_pages]: only a SessionModel instance has the
    attribute. *)
Definition get_viewed (v : value) : M world Z :=
  match v with
  | VSession r => do s <- deref r ; ret (amount_of_viewed_pages s)
  | _ => lift (Raise AttributeError)
  end.

(** [v.amount_of_viewed_pages = n] on the instance [request_get_data]
    holds. *)
Definition set_viewed (v : value) (n : Z) : M world unit :=
  match v with
  | VSession r =>
      do s <- deref r ;
      modify (fun w =>
        set_heap (<[r := {| session_id := session_id s;
                            amount_of_viewed_pages := n |}]> (heap w)) w)
  | _ => lift (Raise AttributeError)
  end.

(** A view called from a handler: the context dictionary is the handler's
    own and is dropped after the call. *)
Definition call_render (view : View) (context : gmap string value)
  : M world string :=
  lift (snd (@render view context)).

(** The controller and its two views; its [model_manager] is the one
    TextManager of the module, whose shelf is [docs]. *)
Module TextController.

Record t := {
  index_view : View;
  add_view : View
}.

Definition index (self : t) (request_get_data : request)
  : M world response :=
  let title := take_one_or_None request_get_data "title" in
  do session <- lift (dict_getitem request_get_data "SESSION") ;
  do viewed <- get_viewed session ;
  do current_text <- (if viewed <=? 3
                      then TextManager.get_by_title title
                      else ret VNone) ;
  do all_texts <- TextManager.get_all ;
  do session <- lift (dict_getitem request_get_data "SESSION") ;
  do viewed <- get_viewed session ;
  let context : gmap string value :=
    <["all" := VList all_texts]> (
    <["current" := current_text]> (
    <["error" := VStr (if viewed >? 3
                       then "Too many articles reviewed."
                       else EmptyString)]> ∅)) in
  do _ <- (if truthy current_text then
             do session <- lift (dict_getitem request_get_data "SESSION") ;
             do viewed <- get_viewed session ;
             set_viewed session (viewed + 1)
           else ret tt) ;
  do body <- call_render (index_view self) context ;
  ret (200, body).

Definition add (self : t) (request_get_data : request)
  : M world response :=
  let title := take_one_or_None request_get_data "title" in
  let content := take_one_or_None request_get_data "content" in
  do error <- (if negb (truthy title) || negb (truthy content) then
                 ret (VStr "Need fill the form fields.")
               else
                 do is_created <- TextManager.create title content ;
                 ret (if (is_created : bool) then VNone
                      else VStr "Title already exist.")) ;
  let context : gmap string value :=
    <["title" := title]> (
    <["content" := content]> (
    <["error" := error]> ∅)) in
  do body <- call_render (add_view self) context ;
  ret (200, body).

End TextController.

(** ** Main *)

Definition controller : TextController.t :=
  {| TextController.index_view := TextIndexView;
     TextController.add_view := RedirectView |}.

Definition router : Router.t :=
  let r := Router.init in
  let r := Router.register r "/" (fun x => ret (200, "Index HI!")) in
  let r := Router.register r "/text" (TextController.index controller) in
  Router.register r "/text/add" (TextController.add controller).

(** ** WSGI *)

(** The entry point, given [environ["PATH_INFO"]], the dictionary
    [parse_http_get_data] returns and the dictionary [parse_cookies]
    returns (DEBUG is False).  It gives the status line and the headers it
    passes to [start_response], and the list it returns. *)
Definition application (request_path : string)
    (request_get_data cookies : gmap string value)
  : M world (string * list (string * string) * list string) :=
  do _ <- SessionManager.init ;
  do session <- SessionManager.get_or_create
                  (take_one_or_None cookies "session_id") ;
  let request_get_data := <["SESSION" := VSession session]> request_get_data in
  do res <- Router.route router request_path request_get_data ;
  let '(http_status_code, response_body) := res in
  do _ <- SessionManager.init ;
  do _ <- SessionManager.update session ;
  let response_status := http_status http_status_code in
  do s <- deref session ;
  let response_headers :=
    [("Content-Type", "text/html");
     ("Set-Cookie", "session_id=" +:+ session_id s)] in
  ret (response_status, response_headers, [response_body]).

(** ** Vocabulary of the statements *)

(** [needle in hay] on strings. *)
Fixpoint contains (needle hay : string) : bool :=
  String.prefix needle hay ||
  match hay with
  | EmptyString => false
  | String _ rest => contains needle rest
  end.

(** A query parameter as [parse_qs] and the request context have it: one
    string, or a list of one or more strings. *)
Definition is_str (v : value) : bool :=
  match v with VStr _ => true | _ => false end.

Definition is_query_value (v : value) : bool :=
  match v with
  | VStr _ => true
  | VList (x :: rest) => forallb is_str (x :: rest)
  | _ => false
  end.

(** A request dictionary of the entry point: query parameters, and the
    session under the reserved key. *)
Definition query_dict (d : request) : Prop :=
  map_Forall (fun k v => k = "SESSION" \/ is_query_value v = true) d.

(** A document store whose contents are strings, as the add handler
    writes them for the requests of the entry point. *)
Definition docs_are_text (w : world) : Prop :=
  map_Forall (fun _ content => is_str content = true) (live (docs w)).

(** The content block of the index page for [current]. *)
Definition render_content (current : value) : result string :=
  if truthy current then format_current current
  else Ok "What do you want read?".

(** The error block of the index page for [error]. *)
Definition render_error (error : value) : result string :=
  if truthy error then format_error error else py_format error.

(** The page template with its three fields filled in. *)
Definition page (e c ts : string) : string :=
  t_head +:+ e +:+ t_error_content +:+ c +:+ t_content_titles +:+ ts
  +:+ t_tail.

(** The context dictionary as TextIndexView leaves it. *)
Definition rendered_context (context : gmap string value) (error : value)
    (e c ts : string) : gmap string value :=
  let written := <["content" := VStr c]> (<["titles" := VStr ts]> context) in
  if truthy error then <["error" := VStr e]> written else written.

(** What TextIndexView returns, as a function of the entries all, current
    and error of the context. *)
Definition index_page (context : gmap string value) : result string :=
  bind_result (dict_getitem context "all") (fun all =>
  bind_result (iterate all) (fun texts =>
  bind_result (mapM format_li texts) (fun lis =>
  bind_result (dict_getitem context "current") (fun current =>
  bind_result (render_content current) (fun c =>
  bind_result (dict_getitem context "error") (fun error =>
  bind_result (render_error error) (fun e =>
  Ok (page e c (join nl lis))))))))).

(** The context dictionaries the two handlers build. *)
Definition index_context (all_texts : list value) (current_text : value)
    (error : string) : gmap string value :=
  <["all" := VList all_texts]> (
  <["current" := current_text]> (
  <["error" := VStr error]> ∅)).

Definition add_context (title content error : value) : gmap string value :=
  <["title" := title]> (<["content" := content]> (<["error" := error]> ∅)).

(** The response of a handler that renders [context] with [view]. *)
Definition respond (view : View) (context : gmap string value)
  : result response :=
  bind_result (snd (@render view context)) (fun body => Ok (200, body)).

(** The session a call of [SessionModel()] makes in [w]. *)
Definition new_session (w : world) : SessionModel :=
  {| session_id := uuids w (uuid_calls w); amount_of_viewed_pages := 0 |}.

(** The instance at [r] after one more viewed page. *)
Definition viewed_once_more (s : SessionModel) : SessionModel :=
  {| session_id := session_id s;
     amount_of_viewed_pages := amount_of_viewed_pages s + 1 |}.

(** The operations that are given a session or can reach one, and the
    state each leaves. *)
Inductive operation :=
| OpIndex (self : TextController.t) (request_get_data : request)
| OpAdd (self : TextController.t) (request_get_data : request)
| OpGetOrCreate (sid : value)
| OpUpdate (session : loc).

Definition step (o : operation) (w : world) : world :=
  match o with
  | OpIndex self request_get_data =>
      fst (TextController.index self request_get_data w)
  | OpAdd self request_get_data =>
      fst (TextController.add self request_get_data w)
  | OpGetOrCreate sid => fst (SessionManager.get_or_create sid w)
  | OpUpdate session => fst (SessionManager.update session w)
  end.

Definition steps (l : list operation) (w : world) : world :=
  fold_left (fun w o => step o w) l w.

(** A document view under the gate: the operation is an index call whose
    request holds the session at [r], the counter is at most 3 and
    get_by_title finds the document. *)
Definition views_document (o : operation) (w : world) (r : loc) : Prop :=
  exists self request_get_data s doc,
    o = OpIndex self request_get_data /\
    request_get_data !! "SESSION" = Some (VSession r) /\
    heap w !! r = Some s /\ amount_of_viewed_pages s <= 3 /\
    snd (TextManager.get_by_title
           (take_one_or_None request_get_data "title") w) = Ok doc /\
    truthy doc = true.

(** ** Example state *)

(** The dictionary of the doctests of [take_one_or_None]. *)
Definition doctest_d : gmap string value :=
  <["foo" := VList [VInt 1; VInt 2; VInt 3]]> (<["baz" := VInt 7]> ∅).

(** A store with one document and one live session that has viewed three
    pages. *)
Definition example_world : world :=
  World (shelf_open (<["Foo" := VStr "Bar"]> ∅))
        (shelf_open ∅)
        (<[0%nat := {| session_id := "a1"; amount_of_viewed_pages := 3 |}]> ∅)
        (fun n => "uuid-" +:+ NilZero.string_of_int (Z.to_int (Z.of_nat n)))
        0.

(** The request [/text?title=Foo] after the entry point has put the session
    under its reserved key. *)
Definition example_request : request :=
  <["title" := VList [VStr "Foo"]]> (<["SESSION" := VSession 0%nat]> ∅).

(** The sessions file after one visitor has been given a session. *)
Definition visited_world : world :=
  fst (SessionManager.get_or_create VNone example_world).

(** The context of the index page of an empty store. *)
Definition example_context : gmap string value :=
  index_context [] VNone EmptyString.

(** The example state after the session has viewed a fourth page. *)
Definition blocked_world : world :=
  set_heap (<[0%nat := {| session_id := "a1";
                          amount_of_viewed_pages := 4 |}]>
              (heap example_world)) example_world.

(** A run of creates, one after the other. *)
Fixpoint creates (l : list (string * value)) (w : world) : world :=
  match l with
  | [] => w
  | (title, content) :: rest =>
      creates rest (fst (TextManager.create (VStr title) content w))
  end.

(** A process that starts with empty databases. *)
Definition empty_world (uuids : nat -> string) : world :=
  World (shelf_open ∅) (shelf_open ∅) ∅ uuids 0.

(** The requests of the end-to-end scenario: [/text/add?title=Foo&content=Bar]
    and [/text?title=Foo], and the cookie of a session. *)
Definition scenario_add : request :=
  <["title" := VList [VStr "Foo"]]> (<["content" := VList [VStr "Bar"]]> ∅).
Definition scenario_view : request := <["title" := VList [VStr "Foo"]]> ∅.
Definition scenario_cookie (id : string) : gmap string value :=
  <["session_id" := VStr id]> ∅.

(** The state after the add request of a first visitor and [n] view
    requests with the cookie that visitor was given. *)
Definition scenario (n : nat) : world :=
  Nat.iter n
    (fun w => fst (application "/text" scenario_view
                     (scenario_cookie "uuid-0") w))
    (fst (application "/text/add" scenario_add ∅
            (empty_world (uuids example_world)))).

(** ** Cookies and the environ *)

(** What [str.strip()] removes: the characters 9 to 13 and the space. *)
Definition is_space (a : ascii) : bool :=
  let n := nat_of_ascii a in
  ((9 <=? n) && (n <=? 13) || (n =? 32))%nat.

Fixpoint lstrip (s : string) : string :=
  match s with
  | String a rest => if is_space a then lstrip rest else s
  | EmptyString => EmptyString
  end.

Fixpoint rstrip (s : string) : string :=
  match s with
  | String a rest =>
      match rstrip rest with
      | EmptyString =>
          if is_space a then EmptyString else String a EmptyString
      | kept => String a kept
      end
  | EmptyString => EmptyString
  end.

(** [s.strip()] *)
Definition strip (s : string) : string := lstrip (rstrip s).

(** [s.split(sep)] for a separator of one character: the pieces between
    the occurrences of [sep], of which there is always at least one. *)
Fixpoint str_split (sep : ascii) (s : string) : list string :=
  match s with
  | EmptyString => [EmptyString]
  | String a rest =>
      if Ascii.eqb a sep then EmptyString :: str_split sep rest
      else
        match str_split sep rest with
        | first :: others => String a first :: others
        | [] => [String a EmptyString]
        end
  end.

(** What stops the entry point before it has a session: a key that
    [environ] has not, or an element of the wrong length given to [dict]. *)
Inductive fault :=
| MissingKey (key : string)
| WrongLength (element : nat) (length : nat).

Inductive attempt (A : Type) :=
| Done (a : A)
| Fault (f : fault).
Arguments Done {A} a.
Arguments Fault {A} f.

(** [dict(l)] for a list of lists of strings, from element [i] on: every
    element has to have two items; a later key replaces an earlier one. *)
Fixpoint dict_of_lists (i : nat) (l : list (list string))
    (d : gmap string value) : attempt (gmap string value) :=
  match l with
  | [] => Done d
  | [k; v] :: rest => dict_of_lists (S i) rest (<[k := VStr v]> d)
  | x :: _ => Fault (WrongLength i (length x))
  end.

Definition parse_cookies (environ : gmap string string)
  : attempt (gmap string value) :=
  match environ !! "HTTP_COOKIE" with
  | None => Fault (MissingKey "HTTP_COOKIE")
  | Some header =>
      dict_of_lists 0
        (map (fun x => map strip (str_split "=" x)) (str_split ";" header))
        ∅
  end.

Section Environ.

(** [urlparse.parse_qs], which is not of this program. *)
Variable parse_qs : string -> gmap string value.

Definition parse_http_get_data (environ : gmap string string)
  : attempt (gmap string value) :=
  match environ !! "QUERY_STRING" with
  | None => Fault (MissingKey "QUERY_STRING")
  | Some query => Done (parse_qs query)
  end.

(** [application(environ, start_response)] from the environ on: the path,
    the query and the cookies are read before anything else is done. *)
Definition application_environ (environ : gmap string string) (w : world)
  : world * attempt (result (string * list (string * string) * list string)) :=
  match environ !! "PATH_INFO" with
  | None => (w, Fault (MissingKey "PATH_INFO"))
  | Some request_path =>
      match parse_http_get_data environ with
      | Fault f => (w, Fault f)
      | Done request_get_data =>
          match parse_cookies environ with
          | Fault f => (w, Fault f)
          | Done cookies =>
              let '(w', served) :=
                application request_path request_get_data cookies w in
              (w', Done served)
          end
      end
  end.

End Environ.

(** ** More vocabulary *)

(** Both shelves hold on file what their handles hold. *)
Definition synced (w : world) : Prop :=
  durable (docs w) = live (docs w) /\
  durable (sessions w) = live (sessions w).

(** Every session record is stored under its own id. *)
Definition sessions_keyed (w : world) : Prop :=
  map_Forall (fun k s => session_id s = k) (live (sessions w)).

(** The states the entry point works on. *)
Definition well_formed (w : world) : Prop :=
  synced w /\ sessions_keyed w /\ docs_are_text w.

(** A run of registrations, one after the other. *)
Definition register_all (l : list (string * handler)) (r : Router.t)
  : Router.t :=
  fold_left (fun r '(path, callback) => Router.register r path callback) l r.

(** The header [k1=v1;k2=v2;...] of a list of pairs. *)
Definition cookie_header (l : list (string * string)) : string :=
  join ";" (map (fun '(k, v) => k +:+ "=" +:+ v) l).

(** [c] does not occur in [s]. *)
Fixpoint free_of (c : ascii) (s : string) : bool :=
  match s with
  | EmptyString => true
  | String a rest => negb (Ascii.eqb a c) && free_of c rest
  end.

(** A pair whose key and value have neither [;] nor [=]. *)
Definition plain_pair (p : string * string) : Prop :=
  free_of ";" (fst p) = true /\ free_of "=" (fst p) = true /\
  free_of ";" (snd p) = true /\ free_of "=" (snd p) = true.

(** Keys and values of a dictionary of stripped strings. *)
Definition stripped_dict (d : gmap string value) : Prop :=
  map_Forall
    (fun k v => strip k = k /\ exists s, v = VStr s /\ strip s = s) d.

(** The error template around [e]. *)
Definition error_block (e : string) : string :=
  nl +:+ "            <h1 style=" +:+ dq +:+ "color:red;" +:+ dq +:+ ">"
  +:+ e +:+ "</h1>" +:+ nl +:+ "            ".

(** * Properties *)

(** ** Running the monad *)

Ltac run :=
  unfold bind, ret, reads, gets, modify, lift;
  cbn -[Z.leb Z.gtb Z.add].

Lemma bool_decide_is_Some_true {A} (o : option A) a :
  o = Some a -> bool_decide (is_Some o) = true.
Proof. intros ->. apply bool_decide_eq_true. eauto. Qed.

Lemma bool_decide_is_Some_false {A} (o : option A) :
  o = None -> bool_decide (is_Some o) = false.
Proof. intros ->. apply bool_decide_eq_false. intros [x Hx]. discriminate. Qed.

(** ** The doctests of take_one_or_None *)

Example take_one_or_None_foo : take_one_or_None doctest_d "foo" = VInt 1.
Proof. reflexivity. Qed.

Example take_one_or_None_bar : take_one_or_None doctest_d "bar" = VNone.
Proof. reflexivity. Qed.

Example take_one_or_None_baz : take_one_or_None doctest_d "baz" = VInt 7.
Proof. reflexivity. Qed.

(** ** http_status *)

(** C8: http_status gives exactly "200 OK" for the code 200 and exactly
    "404 Not Found" for every other integer code. *)
Theorem http_status_two_lines (code : Z) :
  (code = 200 /\ http_status code = "200 OK") \/
  (code <> 200 /\ http_status code = "404 Not Found").
Proof.
  unfold http_status.
  destruct (Z.eqb_spec code 200) as [Heq | Hne]; [left | right]; auto.
Qed.

(** ** TextManager *)

Section TextManagerFacts.

Variable w : world.
Variable title : string.

Lemma create_present content old :
  live (docs w) !! title = Some old ->
  TextManager.create (VStr title) content w = (w, Ok false).
Proof.
  intros Hin. unfold TextManager.create. run.
  now rewrite (bool_decide_is_Some_true _ _ Hin).
Qed.

Lemma create_absent content :
  live (docs w) !! title = None ->
  TextManager.create (VStr title) content w =
    (set_docs (shelf_sync
                 (Shelf (<[title := content]> (live (docs w)))
                        (durable (docs w)))) w,
     Ok true).
Proof.
  intros Hout. unfold TextManager.create. run.
  now rewrite (bool_decide_is_Some_false _ Hout).
Qed.

Lemma get_by_title_lookup :
  TextManager.get_by_title (VStr title) w =
    (w, Ok (match live (docs w) !! title with
            | Some content =>
                if truthy content then TextModel (VStr title) content
                else VNone
            | None => VNone
            end)).
Proof.
  unfold TextManager.get_by_title. run.
  destruct (live (docs w) !! title); reflexivity.
Qed.

End TextManagerFacts.

(** get_by_title reads only. *)
Lemma get_by_title_world (title : value) (w : world) :
  fst (TextManager.get_by_title title w) = w.
Proof.
  unfold TextManager.get_by_title. run.
  now destruct (shelf_get (docs w) title).
Qed.

(** C2: create on a title that is already stored returns False and leaves
    the whole state as it was; on a title that is not stored it puts the
    content under the title, syncs the shelf and returns True; so after a
    first create of a new title a second create of that title fails and the
    first content is still there. *)
Theorem create_unique_on_title (w : world) (title : string) (content : value) :
  (forall old, live (docs w) !! title = Some old ->
     TextManager.create (VStr title) content w = (w, Ok false)) /\
  (live (docs w) !! title = None ->
     exists w',
       TextManager.create (VStr title) content w = (w', Ok true) /\
       live (docs w') = <[title := content]> (live (docs w)) /\
       durable (docs w') = live (docs w') /\
       sessions w' = sessions w /\ heap w' = heap w /\
       forall content2,
         TextManager.create (VStr title) content2 w' = (w', Ok false) /\
         live (docs w') !! title = Some content).
Proof.
  split.
  - intros old Hin. now apply create_present with old.
  - intros Hout. eexists. split; [now apply create_absent |].
    do 4 (split; [reflexivity |]).
    intros content2.
    assert (Hnow : live (docs (set_docs (shelf_sync
                     (Shelf (<[title := content]> (live (docs w)))
                            (durable (docs w)))) w)) !! title = Some content)
      by apply lookup_insert_eq.
    split; [now apply create_present with content | exact Hnow].
Qed.

Lemma create_unique_on_title_witness :
  TextManager.create (VStr "Foo") (VStr "Baz") example_world
    = (example_world, Ok false) /\
  exists w',
    TextManager.create (VStr "Quux") (VStr "Baz") example_world
      = (w', Ok true) /\
    live (docs w') !! "Quux" = Some (VStr "Baz").
Proof.
  split.
  - apply (proj1 (create_unique_on_title example_world "Foo" (VStr "Baz"))
             (VStr "Bar")).
    reflexivity.
  - destruct (proj2 (create_unique_on_title example_world "Quux" (VStr "Baz")))
      as (w' & Hrun & _ & _ & _ & _ & Hagain).
    + reflexivity.
    + exists w'. split; [exact Hrun |]. apply (Hagain VNone).
Defined.

Lemma create_keeps_other w t content title :
  t <> title ->
  live (docs (fst (TextManager.create (VStr t) content w))) !! title
    = live (docs w) !! title.
Proof.
  intros Hne. destruct (live (docs w) !! t) as [old |] eqn:Ht.
  - now rewrite (create_present w t content old Ht).
  - rewrite (create_absent w t content Ht). cbn.
    now apply lookup_insert_ne.
Qed.

Lemma creates_keep_other l : forall w title,
  title ∉ map fst l ->
  live (docs (creates l w)) !! title = live (docs w) !! title.
Proof.
  induction l as [| [t content] rest IH]; intros w title Hnotin; cbn.
  - reflexivity.
  - cbn in Hnotin. apply not_elem_of_cons in Hnotin as [Hne Hrest].
    rewrite IH by exact Hrest.
    apply create_keeps_other. congruence.
Qed.

(** C3: get_by_title returns None when the title is not stored and when
    the stored content is false (empty); for a title created with content
    that is true it returns the TextModel of that title and content; for a
    title that no create of the run named it returns None. *)
Theorem get_by_title_found_or_None (w : world) (title : string) :
  (live (docs w) !! title = None ->
     TextManager.get_by_title (VStr title) w = (w, Ok VNone)) /\
  (forall content,
     live (docs w) !! title = Some content -> truthy content = false ->
     TextManager.get_by_title (VStr title) w = (w, Ok VNone)) /\
  (forall content,
     live (docs w) !! title = Some content -> truthy content = true ->
     TextManager.get_by_title (VStr title) w
       = (w, Ok (TextModel (VStr title) content))) /\
  (forall content,
     live (docs w) !! title = None -> truthy content = true ->
     exists w',
       TextManager.create (VStr title) content w = (w', Ok true) /\
       TextManager.get_by_title (VStr title) w'
         = (w', Ok (TextModel (VStr title) content))) /\
  (forall l ids,
     title ∉ map fst l ->
     let w' := creates l (empty_world ids) in
     TextManager.get_by_title (VStr title) w' = (w', Ok VNone)).
Proof.
  repeat split.
  - intros Hout. rewrite get_by_title_lookup. now rewrite Hout.
  - intros content Hin Hfalse. rewrite get_by_title_lookup.
    now rewrite Hin, Hfalse.
  - intros content Hin Htrue. rewrite get_by_title_lookup.
    now rewrite Hin, Htrue.
  - intros content Hout Htrue. eexists.
    split; [now apply create_absent |].
    rewrite get_by_title_lookup. cbn.
    now rewrite lookup_insert_eq, Htrue.
  - intros l ids Hnotin w'. rewrite get_by_title_lookup.
    subst w'. rewrite creates_keep_other by exact Hnotin.
    reflexivity.
Qed.

Lemma get_by_title_found_or_None_witness :
  TextManager.get_by_title (VStr "Foo") example_world
    = (example_world, Ok (TextModel (VStr "Foo") (VStr "Bar"))) /\
  TextManager.get_by_title (VStr "Quux") example_world
    = (example_world, Ok VNone) /\
  (let w' := creates [("Foo", VStr "Bar")] (empty_world (fun _ => "u")) in
   TextManager.get_by_title (VStr "Quux") w' = (w', Ok VNone)).
Proof.
  split; [| split].
  - pose proof (get_by_title_found_or_None example_world "Foo")
      as (_ & _ & Hfound & _).
    apply Hfound; reflexivity.
  - pose proof (get_by_title_found_or_None example_world "Quux")
      as (Hnone & _).
    apply Hnone; reflexivity.
  - pose proof (get_by_title_found_or_None example_world "Quux")
      as (_ & _ & _ & _ & Hnever).
    apply Hnever. cbn. apply not_elem_of_cons. split; [discriminate |].
    apply not_elem_of_nil.
Defined.

(** ** SessionManager *)

Lemma fresh_loc_unused (h : gmap loc SessionModel) :
  h !! fresh (dom h) = None.
Proof. apply not_elem_of_dom. apply is_fresh. Qed.

Section SessionManagerFacts.

Variable w : world.

Lemma get_or_create_missing sid :
  shelf_get (sessions w) sid = Ok None ->
  SessionManager.get_or_create sid w =
    (World (docs w)
       (shelf_sync (Shelf (<[session_id (new_session w) := new_session w]>
                             (live (sessions w)))
                          (durable (sessions w))))
       (<[fresh (dom (heap w)) := new_session w]> (heap w))
       (uuids w) (S (uuid_calls w)),
     Ok (fresh (dom (heap w)))).
Proof.
  intros Hget. unfold SessionManager.get_or_create, bind at 1, reads at 1.
  rewrite Hget.
  unfold SessionModel_init, uuid4, alloc, deref. run.
  now rewrite lookup_insert_eq.
Qed.

Lemma get_or_create_stored sid stored :
  shelf_get (sessions w) sid = Ok (Some stored) ->
  SessionManager.get_or_create sid w =
    (set_heap (<[fresh (dom (heap w)) := stored]> (heap w)) w,
     Ok (fresh (dom (heap w)))).
Proof.
  intros Hget. unfold SessionManager.get_or_create, bind at 1, reads at 1.
  now rewrite Hget.
Qed.

End SessionManagerFacts.

(** X22: given None or an id that is not a key of the session store,
    get_or_create makes a new SessionModel whose id is the next value of
    uuid4 and whose counter is 0, stores it under that id, syncs and returns
    it; given a key of the store it returns the stored session and leaves
    the store as it was. *)
Theorem get_or_create_new_or_stored (w : world) (sid : value) :
  (sid = VNone \/ (exists k, sid = VStr k /\ live (sessions w) !! k = None) ->
     exists w' r,
       SessionManager.get_or_create sid w = (w', Ok r) /\
       heap w !! r = None /\
       heap w' !! r = Some (new_session w) /\
       session_id (new_session w) = uuids w (uuid_calls w) /\
       amount_of_viewed_pages (new_session w) = 0 /\
       uuid_calls w' = S (uuid_calls w) /\
       live (sessions w')
         = <[session_id (new_session w) := new_session w]>
             (live (sessions w)) /\
       durable (sessions w') = live (sessions w')) /\
  (forall k stored,
     sid = VStr k -> live (sessions w) !! k = Some stored ->
     exists w' r,
       SessionManager.get_or_create sid w = (w', Ok r) /\
       heap w !! r = None /\
       heap w' !! r = Some stored /\
       sessions w' = sessions w /\
       uuid_calls w' = uuid_calls w).
Proof.
  split.
  - intros Hmiss.
    assert (Hget : shelf_get (sessions w) sid = Ok None).
    { destruct Hmiss as [-> | (k & -> & Hk)]; cbn; [reflexivity |].
      now rewrite Hk. }
    eexists _, _. split; [now apply get_or_create_missing |].
    split; [apply fresh_loc_unused |].
    split; [cbn; apply lookup_insert_eq |].
    repeat split.
  - intros k stored -> Hk.
    assert (Hget : shelf_get (sessions w) (VStr k) = Ok (Some stored))
      by (cbn; now rewrite Hk).
    eexists _, _. split; [apply get_or_create_stored; exact Hget |].
    split; [apply fresh_loc_unused |].
    split; [cbn; apply lookup_insert_eq |].
    split; reflexivity.
Qed.

Lemma get_or_create_new_or_stored_witness :
  (exists w' r,
     SessionManager.get_or_create (VStr "unknown") example_world = (w', Ok r) /\
     heap w' !! r = Some {| session_id := "uuid-0";
                            amount_of_viewed_pages := 0 |}) /\
  (exists w' r,
     SessionManager.get_or_create (VStr "uuid-0") visited_world = (w', Ok r) /\
     sessions w' = sessions visited_world).
Proof.
  split.
  - destruct (proj1 (get_or_create_new_or_stored example_world
                       (VStr "unknown")))
      as (w' & r & Hrun & _ & Hnew & _).
    + right. exists "unknown". split; reflexivity.
    + exists w', r. split; [exact Hrun | exact Hnew].
  - destruct (proj2 (get_or_create_new_or_stored visited_world
                       (VStr "uuid-0"))
                "uuid-0" {| session_id := "uuid-0";
                            amount_of_viewed_pages := 0 |})
      as (w' & r & Hrun & _ & _ & Hsame & _).
    + reflexivity.
    + reflexivity.
    + exists w', r. split; [exact Hrun | exact Hsame].
Defined.

(** ** Views *)

Ltac ctx_lookup :=
  repeat first [ rewrite lookup_insert_eq
               | rewrite lookup_insert_ne by done ].

Lemma format_t_ok context error e c ts :
  context !! "error" = Some error -> py_format error = Ok e ->
  context !! "content" = Some (VStr c) ->
  context !! "titles" = Some (VStr ts) ->
  format_t context = Ok (page e c ts).
Proof.
  intros Herr He Hc Hts. unfold format_t, dict_getitem.
  rewrite Herr; cbn. rewrite He; cbn. rewrite Hc; cbn. now rewrite Hts.
Qed.

Lemma TextIndexView_render_ok context all texts lis current c error e :
  context !! "all" = Some all -> iterate all = Ok texts ->
  mapM format_li texts = Ok lis ->
  context !! "current" = Some current -> render_content current = Ok c ->
  context !! "error" = Some error -> render_error error = Ok e ->
  TextIndexView_render context =
    (rendered_context context error e c (join nl lis),
     Ok (page e c (join nl lis))).
Proof.
  intros Hall Hiter Hlis Hcur Hc Herr He.
  unfold TextIndexView_render, getitem, setitem, dict_getitem,
    render_content, render_error, rendered_context in *.
  run. rewrite Hall; cbn. rewrite Hiter; cbn. rewrite Hlis; cbn.
  ctx_lookup. rewrite Hcur; cbn.
  destruct (truthy current); try (injection Hc as <-); run; ctx_lookup;
    rewrite ?Hcur; cbn; rewrite ?Hc; cbn; ctx_lookup; rewrite Herr; cbn;
    destruct (truthy error); run; ctx_lookup; rewrite ?Herr; cbn;
    rewrite ?He; cbn;
    (erewrite format_t_ok; [reflexivity | ctx_lookup; eauto ..]).
Qed.

(** A computation on a context that writes to no key outside [keys]. *)
Definition writes_only {A} (keys : list string)
    (c : M (gmap string value) A) : Prop :=
  forall context k, k ∉ keys -> fst (c context) !! k = context !! k.

Section WritesOnly.

Variable keys : list string.

Lemma writes_only_ret {A} (a : A) : writes_only keys (ret a).
Proof. intros context k _. reflexivity. Qed.

Lemma writes_only_lift {A} (r : result A) : writes_only keys (lift r).
Proof. intros context k _. reflexivity. Qed.

Lemma writes_only_reads {A} (f : gmap string value -> result A) :
  writes_only keys (reads f).
Proof. intros context k _. reflexivity. Qed.

Lemma writes_only_getitem key : writes_only keys (getitem key).
Proof. apply writes_only_reads. Qed.

Lemma writes_only_setitem key v :
  key ∈ keys -> writes_only keys (setitem key v).
Proof.
  intros Hin context k Hout. cbn.
  apply lookup_insert_ne. intros ->. contradiction.
Qed.

Lemma writes_only_bind {A B} (c : M (gmap string value) A)
    (f : A -> M (gmap string value) B) :
  writes_only keys c -> (forall a, writes_only keys (f a)) ->
  writes_only keys (bind c f).
Proof.
  intros Hc Hf context k Hout. unfold bind.
  specialize (Hc context k Hout).
  destruct (c context) as [context' [a | e |]]; cbn in *; try exact Hc.
  rewrite <- Hc. now apply Hf.
Qed.

Lemma writes_only_if {A} (b : bool) (c1 c2 : M (gmap string value) A) :
  writes_only keys c1 -> writes_only keys c2 ->
  writes_only keys (if b then c1 else c2).
Proof. now destruct b. Qed.

End WritesOnly.

Create HintDb writes.
#[local] Hint Resolve writes_only_ret writes_only_lift writes_only_reads
  writes_only_getitem writes_only_setitem writes_only_if : writes.

(** TextIndexView writes to no key but titles, content and error. *)
Lemma TextIndexView_render_frame :
  writes_only ["titles"; "content"; "error"] TextIndexView_render.
Proof.
  assert (Hts : "titles" ∈ ["titles"; "content"; "error"])
    by repeat constructor.
  assert (Hc : "content" ∈ ["titles"; "content"; "error"])
    by repeat constructor.
  assert (He : "error" ∈ ["titles"; "content"; "error"])
    by repeat constructor.
  unfold TextIndexView_render.
  repeat first [ apply writes_only_bind; [| intros ?]
               | apply writes_only_if
               | solve [auto with writes] ].
Qed.

(** The page TextIndexView returns is [index_page] of the context. *)
Lemma TextIndexView_render_page context :
  snd (TextIndexView_render context) = index_page context.
Proof.
  unfold index_page, dict_getitem.
  destruct (context !! "all") as [all |] eqn:Hall; cbn [bind_result].
  2: { unfold TextIndexView_render, getitem, dict_getitem. run.
       now rewrite Hall. }
  destruct (iterate all) as [texts | x |] eqn:Hiter; cbn [bind_result].
  2, 3: unfold TextIndexView_render, getitem, dict_getitem; run;
    rewrite Hall; cbn; now rewrite Hiter.
  destruct (mapM format_li texts) as [lis | x |] eqn:Hlis; cbn [bind_result].
  2, 3: unfold TextIndexView_render, getitem, dict_getitem; run;
    rewrite Hall; cbn; rewrite Hiter; cbn; now rewrite Hlis.
  destruct (context !! "current") as [current |] eqn:Hcur; cbn [bind_result].
  2: { unfold TextIndexView_render, getitem, setitem, dict_getitem. run.
       rewrite Hall; cbn. rewrite Hiter; cbn. rewrite Hlis; cbn.
       ctx_lookup. now rewrite Hcur. }
  destruct (render_content current) as [c | x |] eqn:Hc; cbn [bind_result].
  2, 3: unfold TextIndexView_render, getitem, setitem, dict_getitem; run;
    rewrite Hall; cbn; rewrite Hiter; cbn; rewrite Hlis; cbn;
    ctx_lookup; rewrite Hcur; cbn; unfold render_content in Hc;
    (destruct (truthy current); [| discriminate]); run; ctx_lookup;
    rewrite Hcur; cbn; now rewrite Hc.
  destruct (context !! "error") as [error |] eqn:Herr; cbn [bind_result].
  2: { unfold TextIndexView_render, getitem, setitem, dict_getitem. run.
       rewrite Hall; cbn. rewrite Hiter; cbn. rewrite Hlis; cbn.
       ctx_lookup. rewrite Hcur; cbn. unfold render_content in Hc.
       destruct (truthy current); run; ctx_lookup;
         rewrite ?Hcur; cbn; rewrite ?Hc; cbn; ctx_lookup;
         now rewrite Herr. }
  destruct (render_error error) as [e | x |] eqn:He; cbn [bind_result].
  1: now rewrite (TextIndexView_render_ok context all texts lis current c
                    error e).
  all: unfold TextIndexView_render, getitem, setitem, dict_getitem; run;
    rewrite Hall; cbn; rewrite Hiter; cbn; rewrite Hlis; cbn;
    ctx_lookup; rewrite Hcur; cbn; unfold render_content in Hc;
    unfold render_error in He;
    destruct (truthy current); run; ctx_lookup;
    rewrite ?Hcur; cbn; rewrite ?Hc; cbn; ctx_lookup;
    rewrite Herr; cbn; destruct (truthy error); run; ctx_lookup;
    rewrite ?Herr; cbn; rewrite ?He; cbn; try reflexivity;
    unfold format_t, dict_getitem; ctx_lookup; rewrite ?Herr; cbn;
    now rewrite He.
Qed.

Lemma index_page_inv context body :
  index_page context = Ok body ->
  exists all texts lis current c error e,
    context !! "all" = Some all /\ iterate all = Ok texts /\
    mapM format_li texts = Ok lis /\
    context !! "current" = Some current /\ render_content current = Ok c /\
    context !! "error" = Some error /\ render_error error = Ok e /\
    body = page e c (join nl lis).
Proof.
  unfold index_page, dict_getitem. intros Hpage.
  destruct (context !! "all") as [all |] eqn:Hall; [| discriminate].
  cbn [bind_result] in Hpage.
  destruct (iterate all) as [texts | |] eqn:Hiter; [| discriminate ..].
  cbn [bind_result] in Hpage.
  destruct (mapM format_li texts) as [lis | |] eqn:Hlis; [| discriminate ..].
  cbn [bind_result] in Hpage.
  destruct (context !! "current") as [current |] eqn:Hcur; [| discriminate].
  cbn [bind_result] in Hpage.
  destruct (render_content current) as [c | |] eqn:Hc; [| discriminate ..].
  cbn [bind_result] in Hpage.
  destruct (context !! "error") as [error |] eqn:Herr; [| discriminate].
  cbn [bind_result] in Hpage.
  destruct (render_error error) as [e | |] eqn:He; [| discriminate ..].
  cbn [bind_result] in Hpage. injection Hpage as <-.
  exists all, texts, lis, current, c, error, e. auto 10.
Qed.

(** C7, as the code has it: RedirectView returns its page and leaves the
    context as it is.  TextIndexView returns a page that is a function of
    the entries all, current and error of the context, and it writes to the
    context it is given: it leaves every key but titles, content and error
    as it was, and when it returns, titles and content hold the two blocks
    of the page and a true error has been replaced by its block. *)
Theorem views_render_and_write (context : gmap string value) :
  @render RedirectView context = (context, Ok redirect_page) /\
  snd (@render TextIndexView context) = index_page context /\
  (forall context' : gmap string value,
     context' !! "all" = context !! "all" ->
     context' !! "current" = context !! "current" ->
     context' !! "error" = context !! "error" ->
     snd (@render TextIndexView context')
       = snd (@render TextIndexView context)) /\
  (forall k, k ∉ ["titles"; "content"; "error"] ->
     fst (@render TextIndexView context) !! k = context !! k) /\
  (forall body,
     snd (@render TextIndexView context) = Ok body ->
     exists error e c ts,
       context !! "error" = Some error /\
       fst (@render TextIndexView context)
         = rendered_context context error e c ts /\
       body = page e c ts).
Proof.
  split; [reflexivity |].
  split; [apply TextIndexView_render_page |].
  split.
  { intros context' Hall Hcur Herr.
    change (@render TextIndexView) with TextIndexView_render.
    rewrite !TextIndexView_render_page. unfold index_page, dict_getitem.
    now rewrite Hall, Hcur, Herr. }
  split; [intros k Hk; now apply TextIndexView_render_frame |].
  intros body Hbody.
  change (@render TextIndexView context)
    with (TextIndexView_render context) in *.
  rewrite TextIndexView_render_page in Hbody.
  apply index_page_inv in Hbody
    as (all & texts & lis & current & c & error & e & Hall & Hiter & Hlis
        & Hcur & Hc & Herr & He & ->).
  exists error, e, c, (join nl lis). split; [exact Herr |].
  now rewrite (TextIndexView_render_ok context all texts lis current c
                 error e).
Qed.

Lemma views_render_and_write_witness :
  fst (@render TextIndexView example_context) !! "all" = Some (VList []) /\
  exists error e c ts,
    example_context !! "error" = Some error /\
    fst (@render TextIndexView example_context)
      = rendered_context example_context error e c ts /\
    page EmptyString "What do you want read?" EmptyString = page e c ts.
Proof.
  destruct (views_render_and_write example_context)
    as (_ & _ & _ & Hframe & Hwritten).
  split.
  - rewrite Hframe; [reflexivity |].
    intros Hin. apply list_elem_of_In in Hin.
    cbn in Hin. intuition discriminate.
  - apply Hwritten. reflexivity.
Defined.

(** C7, as the claim has it, fails: on the context of the index page of an
    empty store TextIndexView returns the page, and the context it leaves
    has the key titles, which the context it was given has not. *)
Lemma TextIndexView_render_changes_context :
  snd (@render TextIndexView example_context)
    = Ok (page EmptyString "What do you want read?" EmptyString) /\
  example_context !! "titles" = None /\
  fst (@render TextIndexView example_context) !! "titles"
    = Some (VStr EmptyString) /\
  fst (@render TextIndexView example_context) <> example_context.
Proof.
  split; [reflexivity |]. split; [reflexivity |]. split; [reflexivity |].
  intros Hsame.
  apply (f_equal (fun context => context !! "titles")) in Hsame.
  vm_compute in Hsame. discriminate.
Qed.

(** ** Query dictionaries *)

Lemma take_one_of_query_cases (params : request) (key : string) :
  query_dict params -> key <> "SESSION" ->
  take_one_or_None params key = VNone \/
  exists s, take_one_or_None params key = VStr s.
Proof.
  intros Hquery Hkey. unfold take_one_or_None, dict_get.
  destruct (params !! key) as [v |] eqn:Hv; cbn; [| now left].
  pose proof (map_Forall_lookup_1 _ _ _ _ Hquery Hv) as Hq. clear Hv.
  cbn beta in Hq. destruct Hq as [Heq | Hv]; [contradiction |].
  destruct v as [| z | s | l | l | t c | r]; cbn in Hv; try discriminate.
  - right. now exists s.
  - destruct l as [| x rest]; [discriminate |].
    apply andb_true_iff in Hv as [Hx _].
    destruct x; try discriminate. right. eauto.
Qed.

Lemma take_one_of_query (params : request) (key : string) :
  query_dict params -> key <> "SESSION" ->
  truthy (take_one_or_None params key) = true ->
  exists s, take_one_or_None params key = VStr s.
Proof.
  intros Hquery Hkey Htrue.
  destruct (take_one_of_query_cases params key Hquery Hkey) as [Hnone | Hs];
    [| exact Hs].
  rewrite Hnone in Htrue. discriminate.
Qed.

(** ** The add handler *)

Lemma call_render_respond (view : View) context w :
  bind (call_render view context) (fun body => ret (200, body)) w
    = (w, respond view context).
Proof.
  unfold bind, call_render, lift, respond, ret.
  now destruct (snd (@render view context)).
Qed.

Section AddFacts.

Variable self : TextController.t.
Variable request_get_data : request.
Variable w : world.

Let title := take_one_or_None request_get_data "title".
Let content := take_one_or_None request_get_data "content".

Lemma add_needs_fields :
  truthy title = false \/ truthy content = false ->
  TextController.add self request_get_data w =
    (w, respond (TextController.add_view self)
          (add_context title content (VStr "Need fill the form fields."))).
Proof.
  intros Hempty. unfold TextController.add. fold title content.
  assert (Hcond : negb (truthy title) || negb (truthy content) = true).
  { destruct Hempty as [-> | ->]; [reflexivity | apply orb_true_r]. }
  rewrite Hcond. unfold bind at 1. unfold ret at 1.
  apply call_render_respond.
Qed.

Lemma add_duplicate t old :
  title = VStr t -> truthy title = true -> truthy content = true ->
  live (docs w) !! t = Some old ->
  TextController.add self request_get_data w =
    (w, respond (TextController.add_view self)
          (add_context title content (VStr "Title already exist."))).
Proof.
  intros Ht Htitle Hcontent Hin. unfold TextController.add. fold title content.
  rewrite Htitle, Hcontent. cbn [negb orb].
  unfold bind at 1. unfold bind at 1. rewrite Ht.
  rewrite (create_present w t content old Hin). unfold ret at 1.
  apply call_render_respond.
Qed.

Lemma add_created t :
  title = VStr t -> truthy title = true -> truthy content = true ->
  live (docs w) !! t = None ->
  TextController.add self request_get_data w =
    (let w' := set_docs (shelf_sync
                           (Shelf (<[t := content]> (live (docs w)))
                                  (durable (docs w)))) w in
     (w', respond (TextController.add_view self)
            (add_context title content VNone))).
Proof.
  intros Ht Htitle Hcontent Hout. unfold TextController.add. fold title content.
  rewrite Htitle, Hcontent. cbn [negb orb].
  unfold bind at 1. unfold bind at 1. rewrite Ht.
  rewrite (create_absent w t content Hout). unfold ret at 1.
  apply call_render_respond.
Qed.

End AddFacts.

(** C6: when the title or the content taken from the request is missing
    or empty, add leaves the whole state as it was and renders its view
    with the error "Need fill the form fields."; when both are there it
    calls create, and renders with the error "Title already exist." and an
    unchanged state when the title is stored, and with no error and the
    document stored when it is not. *)
Theorem add_validates_form (self : TextController.t)
    (request_get_data : request) (w : world) :
  let title := take_one_or_None request_get_data "title" in
  let content := take_one_or_None request_get_data "content" in
  (truthy title = false \/ truthy content = false ->
     TextController.add self request_get_data w =
       (w, respond (TextController.add_view self)
             (add_context title content
                (VStr "Need fill the form fields.")))) /\
  (forall t, title = VStr t ->
     truthy title = true -> truthy content = true ->
     exists w' created,
       TextManager.create title content w = (w', Ok created) /\
       TextController.add self request_get_data w =
         (w', respond (TextController.add_view self)
                (add_context title content
                   (if created then VNone
                    else VStr "Title already exist."))) /\
       (created = false <-> is_Some (live (docs w) !! t))).
Proof.
  intros title content. split.
  - apply add_needs_fields.
  - intros t Ht Htitle Hcontent.
    destruct (live (docs w) !! t) as [old |] eqn:Hlook.
    + exists w, false. rewrite Ht at 1.
      split; [now apply create_present with old |].
      split; [now apply add_duplicate with t old |].
      split; eauto.
    + eexists _, true. rewrite Ht at 1.
      split; [now apply create_absent |].
      split; [now apply add_created |].
      split; [discriminate | intros [x Hx]; discriminate].
Qed.

(** The request [/text/add?title=Foo] and the request
    [/text/add?title=Foo&content=Baz]. *)
Definition example_add_no_content : request :=
  <["title" := VList [VStr "Foo"]]> (<["SESSION" := VSession 0%nat]> ∅).
Definition example_add_duplicate : request :=
  <["title" := VList [VStr "Foo"]]> (
  <["content" := VList [VStr "Baz"]]> (<["SESSION" := VSession 0%nat]> ∅)).

Lemma add_validates_form_witness :
  TextController.add controller example_add_no_content example_world =
    (example_world,
     respond RedirectView
       (add_context (VStr "Foo") VNone (VStr "Need fill the form fields."))) /\
  exists w' created,
    TextManager.create (VStr "Foo") (VStr "Baz") example_world
      = (w', Ok created) /\
    TextController.add controller example_add_duplicate example_world =
      (w', respond RedirectView
             (add_context (VStr "Foo") (VStr "Baz")
                (if created then VNone else VStr "Title already exist."))) /\
    (created = false <-> is_Some (live (docs example_world) !! "Foo")).
Proof.
  split.
  - apply (proj1 (add_validates_form controller example_add_no_content
                    example_world)).
    right. reflexivity.
  - apply (proj2 (add_validates_form controller example_add_duplicate
                    example_world) "Foo"); reflexivity.
Defined.

(** ** Substrings *)

Lemma prefix_app (needle rest : string) :
  String.prefix needle (needle +:+ rest) = true.
Proof.
  induction needle as [| a needle IH].
  - now destruct rest.
  - change (String a needle +:+ rest) with (String a (needle +:+ rest)).
    cbn [String.prefix].
    destruct (Ascii.ascii_dec a a) as [_ | Hne]; [exact IH | contradiction].
Qed.

Lemma contains_app (before needle rest : string) :
  contains needle (before +:+ needle +:+ rest) = true.
Proof.
  induction before as [| a before IH].
  - change (EmptyString +:+ needle +:+ rest) with (needle +:+ rest).
    destruct (needle +:+ rest) eqn:Hcat; cbn [contains];
      rewrite <- Hcat, prefix_app; reflexivity.
  - change (String a before +:+ needle +:+ rest)
      with (String a (before +:+ needle +:+ rest)).
    cbn [contains]. rewrite IH. apply orb_true_r.
Qed.

(** ** The response of /text/add *)

(** With a query dictionary, add with the wired views returns the
    redirect page. *)
Lemma add_returns_redirect (request_get_data : request) (w : world) :
  query_dict request_get_data ->
  exists w',
    TextController.add controller request_get_data w
      = (w', Ok (200, redirect_page)).
Proof.
  intros Hquery.
  set (title := take_one_or_None request_get_data "title").
  set (content := take_one_or_None request_get_data "content").
  destruct (truthy title) eqn:Htitle.
  - destruct (truthy content) eqn:Hcontent.
    + destruct (take_one_of_query request_get_data "title" Hquery)
        as [t Ht]; [discriminate | exact Htitle |].
      destruct (live (docs w) !! t) as [old |] eqn:Hlook.
      * exists w.
        now rewrite (add_duplicate controller request_get_data w t old).
      * eexists.
        now rewrite (add_created controller request_get_data w t).
    + exists w. rewrite add_needs_fields; [reflexivity | now right].
  - exists w. rewrite add_needs_fields; [reflexivity | now left].
Qed.

(** C10: for every request dictionary of the entry point, add with the
    wired RedirectView returns the status 200 and the redirect page, which
    depends on nothing: RedirectView returns it for every context; neither
    error message is part of it. *)
Theorem add_response_is_redirect (request_get_data : request) (w : world) :
  query_dict request_get_data ->
  (exists w',
     TextController.add controller request_get_data w
       = (w', Ok (200, redirect_page))) /\
  (forall context, snd (@render RedirectView context) = Ok redirect_page) /\
  contains "Need fill the form fields." redirect_page = false /\
  contains "Title already exist." redirect_page = false.
Proof.
  intros Hquery. split; [now apply add_returns_redirect |].
  repeat split.
Qed.

(** A dictionary written out with inserts is a query dictionary when each
    of its entries is one. *)
Ltac query_dict_literal :=
  repeat (apply map_Forall_insert_2;
          [first [left; reflexivity | right; reflexivity] |]);
  apply map_Forall_empty.

Lemma add_response_is_redirect_witness :
  exists w',
    TextController.add controller example_add_duplicate example_world
      = (w', Ok (200, redirect_page)).
Proof.
  apply (add_response_is_redirect example_add_duplicate example_world).
  query_dict_literal.
Defined.

(** ** The index handler *)

Lemma mapM_format_li_texts (items : list (string * value)) :
  mapM format_li
    (map (fun '(title, content) => TextModel (VStr title) content) items)
  = Ok (map (fun '(title, _) => "<li>" +:+ title +:+ "</li>") items).
Proof.
  induction items as [| [t c] rest IH]; cbn; [reflexivity |].
  now rewrite IH.
Qed.

Section IndexFacts.

Variable self : TextController.t.
Variable request_get_data : request.
Variable w : world.
Variable r : loc.
Variable s : SessionModel.

Hypothesis Hsession : request_get_data !! "SESSION" = Some (VSession r).
Hypothesis Hlive : heap w !! r = Some s.

Let title := take_one_or_None request_get_data "title".
Let all_texts :=
  map (fun '(title, content) => TextModel (VStr title) content)
      (shelf_items (docs w)).

Lemma index_blocked :
  amount_of_viewed_pages s > 3 ->
  TextController.index self request_get_data w =
    (w, respond (TextController.index_view self)
          (index_context all_texts VNone "Too many articles reviewed.")).
Proof.
  intros Hmany. unfold TextController.index, get_viewed, deref, dict_getitem.
  unfold TextManager.get_all.
  run. rewrite Hsession. run. rewrite Hlive. run.
  assert (Hle : (amount_of_viewed_pages s <=? 3) = false)
    by (apply Z.leb_gt; lia).
  assert (Hgt : (amount_of_viewed_pages s >? 3) = true)
    by (apply Z.gtb_lt; lia).
  rewrite Hle. run. rewrite Hlive. run. rewrite Hgt. run.
  unfold call_render, respond, index_context, lift.
  fold all_texts.
  now destruct (snd (@render (TextController.index_view self) _)).
Qed.

Lemma index_gate_open doc :
  amount_of_viewed_pages s <= 3 ->
  TextManager.get_by_title title w = (w, Ok doc) ->
  TextController.index self request_get_data w =
    ((if truthy doc
      then set_heap (<[r := viewed_once_more s]> (heap w)) w
      else w),
     respond (TextController.index_view self)
       (index_context all_texts doc EmptyString)).
Proof.
  intros Hfew Hdoc.
  unfold TextController.index, get_viewed, set_viewed, deref, dict_getitem.
  unfold TextManager.get_all. fold title.
  unfold bind at 1. unfold lift at 1. rewrite Hsession.
  unfold bind at 1. unfold bind at 1. rewrite Hlive. unfold ret at 1.
  assert (Hle : (amount_of_viewed_pages s <=? 3) = true)
    by (apply Z.leb_le; lia).
  assert (Hgt : (amount_of_viewed_pages s >? 3) = false).
  { rewrite Z.gtb_ltb. apply Z.ltb_ge. lia. }
  rewrite Hle. unfold bind at 1. rewrite Hdoc.
  run. rewrite Hlive. run. rewrite Hgt.
  destruct (truthy doc); run; repeat (rewrite Hlive; run);
    unfold call_render, respond, index_context, lift; fold all_texts;
    now destruct (snd (@render (TextController.index_view self) _)).
Qed.

Lemma index_lookup_fails (failure : result value) :
  amount_of_viewed_pages s <= 3 ->
  TextManager.get_by_title title w = (w, failure) ->
  (forall doc, failure <> Ok doc) ->
  fst (TextController.index self request_get_data w) = w.
Proof.
  intros Hfew Hdoc Hfails.
  unfold TextController.index, get_viewed, set_viewed, deref, dict_getitem.
  fold title.
  unfold bind at 1. unfold lift at 1. rewrite Hsession.
  unfold bind at 1. unfold bind at 1. rewrite Hlive. unfold ret at 1.
  assert (Hle : (amount_of_viewed_pages s <=? 3) = true)
    by (apply Z.leb_le; lia).
  rewrite Hle. unfold bind at 1. rewrite Hdoc.
  destruct failure as [doc | e |]; [now destruct (Hfails doc) | ..];
    reflexivity.
Qed.

Lemma index_found t content :
  amount_of_viewed_pages s <= 3 ->
  title = VStr t -> live (docs w) !! t = Some content ->
  truthy content = true ->
  TextController.index self request_get_data w =
    (set_heap (<[r := viewed_once_more s]> (heap w)) w,
     respond (TextController.index_view self)
       (index_context all_texts (TextModel (VStr t) content) EmptyString)).
Proof.
  intros Hfew Ht Hin Htrue.
  rewrite (index_gate_open (TextModel (VStr t) content) Hfew);
    [reflexivity |].
  now rewrite Ht, get_by_title_lookup, Hin, Htrue.
Qed.

End IndexFacts.

Lemma prefix_app_l (needle : string) : forall hay rest,
  String.prefix needle hay = true ->
  String.prefix needle (hay +:+ rest) = true.
Proof.
  induction needle as [| a needle IH]; intros hay rest Hpre.
  - now destruct (hay +:+ rest).
  - destruct hay as [| b hay]; [discriminate |].
    change (String b hay +:+ rest) with (String b (hay +:+ rest)).
    cbn [String.prefix] in *.
    destruct (Ascii.ascii_dec a b); [now apply IH | discriminate].
Qed.

Lemma contains_app_l (needle hay rest : string) :
  contains needle hay = true -> contains needle (hay +:+ rest) = true.
Proof.
  induction hay as [| b hay IH]; intros Hin.
  - cbn in Hin. rewrite orb_false_r in Hin.
    destruct needle; [| discriminate].
    now destruct (EmptyString +:+ rest).
  - change (String b hay +:+ rest) with (String b (hay +:+ rest)).
    cbn [contains] in *. apply orb_true_iff in Hin as [Hpre | Hlater].
    + change (String b (hay +:+ rest)) with (String b hay +:+ rest).
      now rewrite (prefix_app_l _ _ rest Hpre).
    + rewrite (IH Hlater). apply orb_true_r.
Qed.

Lemma contains_app_r (needle before hay : string) :
  contains needle hay = true -> contains needle (before +:+ hay) = true.
Proof.
  intros Hin. induction before as [| b before IH]; [exact Hin |].
  change (String b before +:+ hay) with (String b (before +:+ hay)).
  cbn [contains]. rewrite IH. apply orb_true_r.
Qed.

Lemma contains_head (needle rest : string) :
  contains needle (needle +:+ rest) = true.
Proof. apply (contains_app EmptyString). Qed.

Lemma truthy_VStr (c : string) : c <> EmptyString -> truthy (VStr c) = true.
Proof.
  intros Hne. cbn. destruct (String.eqb_spec c EmptyString); [contradiction |].
  reflexivity.
Qed.

(** The page of the index handler, from the page of its context. *)
Lemma respond_index_context all_texts lis current c error e :
  mapM format_li all_texts = Ok lis ->
  render_content current = Ok c ->
  render_error (VStr error) = Ok e ->
  respond TextIndexView (index_context all_texts current error)
    = Ok (200, page e c (join nl lis)).
Proof.
  intros Hlis Hc He. unfold respond.
  change (@render TextIndexView) with TextIndexView_render.
  rewrite TextIndexView_render_page.
  unfold index_page, index_context, dict_getitem. ctx_lookup.
  cbn [bind_result iterate]. rewrite Hlis. cbn [bind_result].
  rewrite Hc. cbn [bind_result]. now rewrite He.
Qed.

(** C1: with a session whose counter is n under SESSION, and a title in the
    request under which a document with a non-empty content is stored: when
    n <= 3, index answers 200 with a page that contains the content, and the
    counter of the session is n + 1 afterwards; when n > 3, whatever the
    title, index renders the page for no current document, the page contains
    "Too many articles reviewed.", and the state is as it was. *)
Theorem index_view_count_gate (request_get_data : request) (w : world)
    (r : loc) (s : SessionModel) :
  request_get_data !! "SESSION" = Some (VSession r) ->
  heap w !! r = Some s ->
  let n := amount_of_viewed_pages s in
  let all_texts :=
    map (fun '(title, content) => TextModel (VStr title) content)
        (shelf_items (docs w)) in
  (n <= 3 ->
   forall t c,
     take_one_or_None request_get_data "title" = VStr t ->
     live (docs w) !! t = Some (VStr c) -> c <> EmptyString ->
     exists w' s' body,
       TextController.index controller request_get_data w
         = (w', Ok (200, body)) /\
       contains c body = true /\
       heap w' !! r = Some s' /\
       amount_of_viewed_pages s' = n + 1 /\
       w' = set_heap (<[r := viewed_once_more s]> (heap w)) w) /\
  (n > 3 ->
   exists body,
     TextController.index controller request_get_data w = (w, Ok (200, body)) /\
     Ok (200, body)
       = respond TextIndexView
           (index_context all_texts VNone "Too many articles reviewed.") /\
     contains "Too many articles reviewed." body = true /\
     contains "What do you want read?" body = true).
Proof.
  intros Hsession Hlive n all_texts. split.
  - intros Hfew t c Htitle Hin Hne.
    pose proof (truthy_VStr c Hne) as Htrue.
    eexists _, (viewed_once_more s), _.
    split.
    { rewrite (index_found controller request_get_data w r s Hsession Hlive
                 t (VStr c) Hfew Htitle Hin Htrue).
      f_equal.
      apply respond_index_context
        with (lis := map (fun '(title, _) => "<li>" +:+ title +:+ "</li>")
                         (shelf_items (docs w))).
      - apply mapM_format_li_texts.
      - reflexivity.
      - reflexivity. }
    split.
    { unfold page. do 3 apply contains_app_r. apply contains_app_l.
      do 6 apply contains_app_r. apply contains_head. }
    split; [cbn; apply lookup_insert_eq |].
    split; reflexivity.
  - intros Hmany.
    assert (Hpage :
      respond TextIndexView
        (index_context all_texts VNone "Too many articles reviewed.")
      = Ok (200, page (nl +:+ "            <h1 style=" +:+ dq +:+ "color:red;"
                       +:+ dq +:+ ">" +:+ "Too many articles reviewed."
                       +:+ "</h1>" +:+ nl +:+ "            ")
                      "What do you want read?"
                      (join nl (map (fun '(title, _) =>
                                       "<li>" +:+ title +:+ "</li>")
                                    (shelf_items (docs w)))))).
    { apply respond_index_context.
      - apply mapM_format_li_texts.
      - reflexivity.
      - reflexivity. }
    eexists. split.
    { rewrite (index_blocked controller request_get_data w r s Hsession
                 Hlive Hmany).
      f_equal. exact Hpage. }
    split; [now rewrite Hpage |].
    split.
    + unfold page. apply contains_app_r. apply contains_app_l.
      do 6 apply contains_app_r. apply contains_head.
    + unfold page. do 3 apply contains_app_r. apply contains_head.
Qed.

Lemma index_view_count_gate_witness :
  (exists w' s' body,
     TextController.index controller example_request example_world
       = (w', Ok (200, body)) /\
     contains "Bar" body = true /\
     heap w' !! 0%nat = Some s' /\
     amount_of_viewed_pages s' = 3 + 1 /\
     w' = blocked_world) /\
  (exists body,
     TextController.index controller example_request blocked_world
       = (blocked_world, Ok (200, body)) /\
     contains "Too many articles reviewed." body = true).
Proof.
  split.
  - destruct (index_view_count_gate example_request example_world 0%nat
                {| session_id := "a1"; amount_of_viewed_pages := 3 |}
                eq_refl eq_refl) as [Hallowed _].
    apply (Hallowed ltac:(cbn; lia) "Foo" "Bar");
      [reflexivity | reflexivity | discriminate].
  - destruct (index_view_count_gate example_request blocked_world 0%nat
                {| session_id := "a1"; amount_of_viewed_pages := 4 |}
                eq_refl eq_refl) as [_ Hblocked].
    destruct (Hblocked ltac:(cbn; lia)) as (body & Hrun & _ & Herror & _).
    exists body. split; [exact Hrun | exact Herror].
Defined.

(** ** The counter of a session *)

Lemma index_heap self (request_get_data : request) w :
  fst (TextController.index self request_get_data w) = w \/
  exists r s doc,
    request_get_data !! "SESSION" = Some (VSession r) /\
    heap w !! r = Some s /\ amount_of_viewed_pages s <= 3 /\
    snd (TextManager.get_by_title
           (take_one_or_None request_get_data "title") w) = Ok doc /\
    truthy doc = true /\
    fst (TextController.index self request_get_data w)
      = set_heap (<[r := viewed_once_more s]> (heap w)) w.
Proof.
  destruct (request_get_data !! "SESSION") as [v |] eqn:Hsession.
  2: { left. unfold TextController.index, dict_getitem. run.
       now rewrite Hsession. }
  destruct v as [| z | x | l | l | t c | r];
    try (left; unfold TextController.index, dict_getitem; run;
         now rewrite Hsession).
  destruct (heap w !! r) as [s |] eqn:Hlive.
  2: { left. unfold TextController.index, dict_getitem, get_viewed, deref. run.
       rewrite Hsession. run. now rewrite Hlive. }
  destruct (Z_le_gt_dec (amount_of_viewed_pages s) 3) as [Hfew | Hmany].
  2: { left. now rewrite (index_blocked self request_get_data w r s). }
  pose proof (get_by_title_world
                (take_one_or_None request_get_data "title") w) as Hworld.
  destruct (TextManager.get_by_title
              (take_one_or_None request_get_data "title") w)
    as [w1 found] eqn:Hfound.
  cbn in Hworld. subst w1.
  destruct found as [doc | e |].
  - rewrite (index_gate_open self request_get_data w r s Hsession Hlive doc
               Hfew Hfound).
    destruct (truthy doc) eqn:Hdoc; [right | now left].
    exists r, s, doc. cbn. auto 10.
  - left. now apply (index_lookup_fails self request_get_data w r s Hsession
                       Hlive (Raise e)).
  - left. now apply (index_lookup_fails self request_get_data w r s Hsession
                       Hlive Unmodelled).
Qed.

Lemma create_heap title content w :
  heap (fst (TextManager.create title content w)) = heap w.
Proof.
  unfold TextManager.create. run.
  destruct (shelf_contains (docs w) title) as [[] | e |]; try reflexivity.
  run. now destruct (shelf_setitem (docs w) title content).
Qed.

Lemma add_heap self (request_get_data : request) w :
  heap (fst (TextController.add self request_get_data w)) = heap w.
Proof.
  unfold TextController.add, call_render.
  destruct (negb (truthy (take_one_or_None request_get_data "title"))
            || negb (truthy (take_one_or_None request_get_data "content"))).
  - run. now destruct (snd (@render (TextController.add_view self) _)).
  - unfold bind at 1. unfold bind at 1.
    pose proof (create_heap (take_one_or_None request_get_data "title")
                  (take_one_or_None request_get_data "content") w) as Hheap.
    destruct (TextManager.create _ _ w) as [w1 [created | e |]];
      cbn in Hheap; try exact Hheap.
    run. now destruct (snd (@render (TextController.add_view self) _)).
Qed.

Lemma get_or_create_heap sid w r s :
  heap w !! r = Some s ->
  heap (fst (SessionManager.get_or_create sid w)) !! r = Some s.
Proof.
  intros Hlive.
  assert (Hfresh : fresh (dom (heap w)) <> r).
  { intros <-. rewrite fresh_loc_unused in Hlive. discriminate. }
  destruct (shelf_get (sessions w) sid) as [[stored |] | e |] eqn:Hget.
  - rewrite (get_or_create_stored w sid stored Hget). cbn.
    now rewrite lookup_insert_ne.
  - rewrite (get_or_create_missing w sid Hget). cbn.
    now rewrite lookup_insert_ne.
  - unfold SessionManager.get_or_create. run. now rewrite Hget.
  - unfold SessionManager.get_or_create. run. now rewrite Hget.
Qed.

Lemma update_heap session w :
  heap (fst (SessionManager.update session w)) = heap w.
Proof.
  unfold SessionManager.update, deref. run.
  now destruct (heap w !! session).
Qed.

(** One operation keeps every session, with a counter at least as large. *)
Lemma step_keeps_sessions (o : operation) (w : world) (r : loc)
    (s : SessionModel) :
  heap w !! r = Some s ->
  exists s',
    heap (step o w) !! r = Some s' /\
    session_id s' = session_id s /\
    amount_of_viewed_pages s <= amount_of_viewed_pages s'.
Proof.
  intros Hlive. destruct o as [self d | self d | sid | session]; cbn [step].
  - destruct (index_heap self d w)
      as [-> | (r0 & s0 & doc & Hsession & Hlive0 & _ & _ & _ & ->)].
    + exists s. repeat split; auto; lia.
    + destruct (decide (r0 = r)) as [-> | Hother].
      * assert (s0 = s) as -> by congruence.
        exists (viewed_once_more s). cbn. rewrite lookup_insert_eq.
        repeat split; lia.
      * exists s. cbn. rewrite lookup_insert_ne by exact Hother.
        repeat split; auto; lia.
  - exists s. rewrite add_heap. repeat split; auto; lia.
  - exists s. rewrite (get_or_create_heap sid w r s Hlive).
    repeat split; auto; lia.
  - exists s. rewrite update_heap. repeat split; auto; lia.
Qed.

(** C9: each of index, add, get_or_create and update leaves every session
    with the id it had and with a counter that is not smaller; the counter
    is either what it was or one more, and one more only for an index call
    that is given this session and finds the document under the gate. *)
Theorem session_counter_never_decreases (o : operation) (w : world)
    (r : loc) (s : SessionModel) :
  heap w !! r = Some s ->
  exists s',
    heap (step o w) !! r = Some s' /\
    session_id s' = session_id s /\
    amount_of_viewed_pages s <= amount_of_viewed_pages s' /\
    (s' = s \/
     amount_of_viewed_pages s' = amount_of_viewed_pages s + 1 /\
     views_document o w r).
Proof.
  intros Hlive. destruct o as [self d | self d | sid | session]; cbn [step].
  - destruct (index_heap self d w)
      as [-> | (r0 & s0 & doc & Hsession & Hlive0 & Hfew & Hdoc & Htrue
                & ->)].
    + exists s. repeat split; auto; lia.
    + destruct (decide (r0 = r)) as [-> | Hother].
      * assert (s0 = s) as -> by congruence.
        exists (viewed_once_more s). cbn. rewrite lookup_insert_eq.
        repeat split; [lia |]. right. split; [reflexivity |].
        exists self, d, s, doc. auto 10.
      * exists s. cbn. rewrite lookup_insert_ne by exact Hother.
        repeat split; auto; lia.
  - exists s. rewrite add_heap. repeat split; auto; lia.
  - exists s. rewrite (get_or_create_heap sid w r s Hlive).
    repeat split; auto; lia.
  - exists s. rewrite update_heap. repeat split; auto; lia.
Qed.

(** Over any run of these operations the counter of a session does not
    decrease. *)
Lemma session_counter_monotone (l : list operation) : forall w r s,
  heap w !! r = Some s ->
  exists s',
    heap (steps l w) !! r = Some s' /\
    session_id s' = session_id s /\
    amount_of_viewed_pages s <= amount_of_viewed_pages s'.
Proof.
  induction l as [| o rest IH]; intros w r s Hlive; cbn.
  - exists s. repeat split; auto; lia.
  - destruct (step_keeps_sessions o w r s Hlive) as (s1 & Hlive1 & Hid1 & Hle1).
    destruct (IH (step o w) r s1 Hlive1) as (s' & Hlive' & Hid' & Hle').
    exists s'. repeat split; [exact Hlive' | congruence | lia].
Qed.

Lemma session_counter_never_decreases_witness :
  exists s',
    heap (step (OpIndex controller example_request) example_world) !! 0%nat
      = Some s' /\
    session_id s' = "a1" /\
    3 <= amount_of_viewed_pages s' /\
    (s' = {| session_id := "a1"; amount_of_viewed_pages := 3 |} \/
     amount_of_viewed_pages s' = 3 + 1 /\
     views_document (OpIndex controller example_request) example_world
       0%nat).
Proof.
  apply (session_counter_never_decreases
           (OpIndex controller example_request) example_world 0%nat
           {| session_id := "a1"; amount_of_viewed_pages := 3 |}).
  reflexivity.
Defined.

(** ** The router *)

(** With a query dictionary, a live session under SESSION and a store of
    text documents, index returns a page. *)
Lemma index_returns_page (request_get_data : request) (w : world)
    (r : loc) (s : SessionModel) :
  query_dict request_get_data ->
  request_get_data !! "SESSION" = Some (VSession r) ->
  heap w !! r = Some s ->
  docs_are_text w ->
  exists w' body,
    TextController.index controller request_get_data w = (w', Ok (200, body)).
Proof.
  intros Hquery Hsession Hlive Htext.
  set (lis := map (fun '(title, _) => "<li>" +:+ title +:+ "</li>")
                  (shelf_items (docs w))).
  destruct (Z_le_gt_dec (amount_of_viewed_pages s) 3) as [Hfew | Hmany].
  2: { rewrite (index_blocked controller request_get_data w r s Hsession
                  Hlive Hmany).
       eexists _, _. f_equal.
       apply respond_index_context with (lis := lis);
         [apply mapM_format_li_texts | reflexivity | reflexivity]. }
  destruct (take_one_of_query_cases request_get_data "title" Hquery)
    as [Hnone | [t Ht]]; [discriminate | |].
  - rewrite (index_gate_open controller request_get_data w r s Hsession
               Hlive VNone Hfew) by now rewrite Hnone.
    eexists _, _. f_equal.
    apply respond_index_context with (lis := lis);
      [apply mapM_format_li_texts | reflexivity | reflexivity].
  - pose proof (get_by_title_lookup w t) as Hdoc. rewrite <- Ht in Hdoc at 1.
    assert (Hpage : exists c,
              render_content
                match live (docs w) !! t with
                | Some content =>
                    if truthy content then TextModel (VStr t) content
                    else VNone
                | None => VNone
                end = Ok c).
    { destruct (live (docs w) !! t) as [content |] eqn:Hin;
        [| now eexists].
      pose proof (map_Forall_lookup_1 _ _ _ _ Htext Hin) as Hstr.
      cbn beta in Hstr. destruct content; try discriminate.
      destruct (truthy (VStr s0)); now eexists. }
    destruct Hpage as [c Hc].
    rewrite (index_gate_open controller request_get_data w r s Hsession
               Hlive _ Hfew Hdoc).
    eexists _, _. f_equal.
    apply respond_index_context with (lis := lis);
      [apply mapM_format_li_texts | exact Hc | reflexivity].
Qed.

(** The add handler keeps the documents text. *)
Lemma add_keeps_docs_text self (request_get_data : request) w :
  query_dict request_get_data -> docs_are_text w ->
  docs_are_text (fst (TextController.add self request_get_data w)).
Proof.
  intros Hquery Htext.
  set (title := take_one_or_None request_get_data "title").
  set (content := take_one_or_None request_get_data "content").
  destruct (truthy title) eqn:Htitle.
  - destruct (truthy content) eqn:Hcontent.
    + destruct (take_one_of_query request_get_data "title" Hquery)
        as [t Ht]; [discriminate | exact Htitle |].
      destruct (take_one_of_query request_get_data "content" Hquery)
        as [c Hc]; [discriminate | exact Hcontent |].
      destruct (live (docs w) !! t) as [old |] eqn:Hlook.
      * now rewrite (add_duplicate self request_get_data w t old).
      * rewrite (add_created self request_get_data w t) by assumption.
        cbn. unfold docs_are_text. cbn. apply map_Forall_insert_2.
        -- now rewrite Hc.
        -- exact Htext.
    + rewrite add_needs_fields; [exact Htext | now right].
  - rewrite add_needs_fields; [exact Htext | now left].
Qed.

(** C4: route looks the path up as it is: a path that is not registered
    gets (404, "Nooo 404!"), a registered path gets what its handler
    returns, and of two registrations of a path the later one is used.  In
    the wired router every path but "/", "/text" and "/text/add" gets the
    404 response, "/" gets (200, "Index HI!"), and "/text" and "/text/add"
    get a response with status 200 for the request dictionaries of the
    entry point. *)
Theorem route_exact_match_or_404 :
  (forall (self : Router.t) (path : string) (data : request) w,
     Router._paths self !! path = None ->
     Router.route self path data w = (w, Ok (404, "Nooo 404!"))) /\
  (forall (self : Router.t) (path : string) (callback : handler)
          (data : request) w,
     Router._paths self !! path = Some callback ->
     Router.route self path data w = callback data w) /\
  (forall (self : Router.t) (path : string) (first second : handler)
          (data : request) w,
     Router.route
       (Router.register (Router.register self path first) path second)
       path data w
     = second data w) /\
  (forall (path : string) (data : request) w,
     path <> "/" -> path <> "/text" -> path <> "/text/add" ->
     Router.route router path data w = (w, Ok (404, "Nooo 404!"))) /\
  (forall (data : request) w,
     Router.route router "/" data w = (w, Ok (200, "Index HI!"))) /\
  (forall (data : request) w r s,
     query_dict data -> data !! "SESSION" = Some (VSession r) ->
     heap w !! r = Some s -> docs_are_text w ->
     exists w' body,
       Router.route router "/text" data w = (w', Ok (200, body))) /\
  (forall (data : request) w,
     query_dict data ->
     exists w' body,
       Router.route router "/text/add" data w = (w', Ok (200, body))).
Proof.
  repeat apply conj.
  - intros self path data w Hnone. unfold Router.route.
    now rewrite Hnone.
  - intros self path callback data w Hsome. unfold Router.route.
    now rewrite Hsome.
  - intros self path first second data w.
    unfold Router.route, Router.register. cbn [Router._paths].
    now rewrite lookup_insert_eq.
  - intros path data w Hroot Htext Hadd.
    unfold Router.route, router, Router.register, Router.init.
    cbn [Router._paths].
    rewrite !lookup_insert_ne by congruence.
    now rewrite lookup_empty.
  - intros data w. reflexivity.
  - intros data w r s Hquery Hsession Hlive Htext.
    change (Router.route router "/text" data w)
      with (TextController.index controller data w).
    now apply index_returns_page with r s.
  - intros data w Hquery.
    change (Router.route router "/text/add" data w)
      with (TextController.add controller data w).
    destruct (add_returns_redirect data w Hquery) as [w' Hrun].
    now exists w', redirect_page.
Qed.

Lemma route_exact_match_or_404_witness :
  Router.route router "/nowhere" example_request example_world
    = (example_world, Ok (404, "Nooo 404!")) /\
  (exists w' body,
     Router.route router "/text" example_request example_world
       = (w', Ok (200, body))) /\
  (exists w' body,
     Router.route router "/text/add" example_add_duplicate example_world
       = (w', Ok (200, body))).
Proof.
  destruct route_exact_match_or_404
    as (_ & _ & _ & Hother & _ & Htext & Hadd).
  split; [| split].
  - apply Hother; discriminate.
  - apply (Htext example_request example_world 0%nat
             {| session_id := "a1"; amount_of_viewed_pages := 3 |}).
    + query_dict_literal.
    + reflexivity.
    + reflexivity.
    + apply map_Forall_insert_2; [reflexivity | apply map_Forall_empty].
  - apply Hadd. query_dict_literal.
Defined.

(** ** The entry point *)

Lemma bind_ok {S A B} (c : M S A) (k : A -> M S B) s s' a :
  c s = (s', Ok a) -> bind c k s = k a s'.
Proof. intros Hc. unfold bind. now rewrite Hc. Qed.

Lemma index_docs self (request_get_data : request) w :
  docs (fst (TextController.index self request_get_data w)) = docs w.
Proof.
  destruct (index_heap self request_get_data w)
    as [-> | (r & s & doc & _ & _ & _ & _ & _ & ->)]; reflexivity.
Qed.

(** What the router answers to a request of the entry point. *)
Lemma route_serves (path : string) (data : request) w r s :
  query_dict data -> data !! "SESSION" = Some (VSession r) ->
  heap w !! r = Some s -> docs_are_text w ->
  exists w' code body s',
    Router.route router path data w = (w', Ok (code, body)) /\
    docs_are_text w' /\ heap w' !! r = Some s' /\
    ((path = "/" \/ path = "/text" \/ path = "/text/add") /\ code = 200 \/
     (path <> "/" /\ path <> "/text" /\ path <> "/text/add") /\
     code = 404 /\ body = "Nooo 404!").
Proof.
  intros Hquery Hsession Hlive Htext.
  destruct (decide (path = "/")) as [-> | Hroot].
  { exists w, 200, "Index HI!", s. repeat split; auto. }
  destruct (decide (path = "/text")) as [-> | Hindex].
  { change (Router.route router "/text" data w)
      with (TextController.index controller data w).
    destruct (index_returns_page data w r s Hquery Hsession Hlive Htext)
      as (w' & body & Hrun).
    destruct (step_keeps_sessions (OpIndex controller data) w r s Hlive)
      as (s' & Hlive' & _).
    cbn [step] in Hlive'. pose proof (index_docs controller data w) as Hdocs.
    rewrite Hrun in Hlive', Hdocs. cbn [fst] in Hlive', Hdocs.
    exists w', 200, body, s'. repeat split; auto.
    unfold docs_are_text. now rewrite Hdocs. }
  destruct (decide (path = "/text/add")) as [-> | Hadd].
  { change (Router.route router "/text/add" data w)
      with (TextController.add controller data w).
    destruct (add_returns_redirect data w Hquery) as (w' & Hrun).
    pose proof (add_keeps_docs_text controller data w Hquery Htext) as Htext'.
    pose proof (add_heap controller data w) as Hheap.
    rewrite Hrun in Htext', Hheap. cbn [fst] in Htext', Hheap.
    exists w', 200, redirect_page, s. repeat split; auto.
    now rewrite Hheap. }
  exists w, 404, "Nooo 404!", s. repeat split; auto.
  unfold Router.route, router, Router.register, Router.init.
  cbn [Router._paths]. rewrite !lookup_insert_ne by congruence.
  now rewrite lookup_empty.
Qed.

(** Every request of the entry point is answered, with one of the two
    status lines, and the documents stay text. *)
Lemma application_serves (path : string) (query cookies : gmap string value)
    (w : world) :
  query_dict query -> query_dict cookies -> docs_are_text w ->
  exists w' status id body,
    application path query cookies w =
      (w', Ok (status,
               [("Content-Type", "text/html");
                ("Set-Cookie", "session_id=" +:+ id)],
               [body])) /\
    docs_are_text w' /\
    ((path = "/" \/ path = "/text" \/ path = "/text/add") /\
     status = "200 OK" \/
     (path <> "/" /\ path <> "/text" /\ path <> "/text/add") /\
     status = "404 Not Found" /\ body = "Nooo 404!").
Proof.
  intros Hquery Hcookies Htext. unfold application.
  unfold bind at 1. cbn [SessionManager.init modify].
  set (w0 := set_sessions (shelf_open (durable (sessions w))) w).
  assert (Hsid : exists w1 r s1,
            SessionManager.get_or_create
              (take_one_or_None cookies "session_id") w0 = (w1, Ok r) /\
            heap w1 !! r = Some s1 /\ docs w1 = docs w).
  { destruct (take_one_of_query_cases cookies "session_id" Hcookies)
      as [-> | [k ->]]; [discriminate | |].
    - rewrite (get_or_create_missing w0 VNone eq_refl).
      eexists _, _, _. split; [reflexivity |]. cbn.
      now rewrite lookup_insert_eq.
    - destruct (live (sessions w0) !! k) as [stored |] eqn:Hk.
      + rewrite (get_or_create_stored w0 (VStr k) stored)
          by (cbn [shelf_get]; now rewrite Hk).
        eexists _, _, _. split; [reflexivity |]. cbn.
        now rewrite lookup_insert_eq.
      + rewrite (get_or_create_missing w0 (VStr k))
          by (cbn [shelf_get]; now rewrite Hk).
        eexists _, _, _. split; [reflexivity |]. cbn.
        now rewrite lookup_insert_eq. }
  destruct Hsid as (w1 & r & s1 & Hcreate & Hlive1 & Hdocs1).
  rewrite (bind_ok _ _ _ _ _ Hcreate).
  assert (Htext1 : docs_are_text w1)
    by (unfold docs_are_text; now rewrite Hdocs1).
  destruct (route_serves path (<["SESSION" := VSession r]> query) w1 r s1)
    as (w2 & code & body & s2 & Hroute & Htext2 & Hlive2 & Hcode).
  { apply map_Forall_insert_2; [now left | exact Hquery]. }
  { apply lookup_insert_eq. }
  { exact Hlive1. }
  { exact Htext1. }
  rewrite (bind_ok _ _ _ _ _ Hroute).
  unfold SessionManager.update, SessionManager.init, deref. run.
  rewrite Hlive2. run. rewrite Hlive2.
  eexists _, _, _, _. split; [reflexivity |].
  split; [exact Htext2 |].
  destruct Hcode as [[Hpath ->] | (Hpath & -> & ->)]; [left | right]; auto.
Qed.

(** The end-to-end scenario: a first visitor adds Foo with content Bar and
    is given the session uuid-0; four views of Foo with that cookie are
    served and count, the fifth is refused and does not count. *)
Example scenario_counter :
  map (fun n => amount_of_viewed_pages
                  <$> live (sessions (scenario n)) !! "uuid-0")
      [0; 1; 2; 3; 4; 5; 6]%nat
  = [Some 0; Some 1; Some 2; Some 3; Some 4; Some 4; Some 4].
Proof. vm_compute. reflexivity. Qed.

Example scenario_fourth_view_is_served :
  exists w' page,
    TextController.index controller
      (<["SESSION" := VSession 0%nat]> scenario_view) example_world
      = (w', Ok (200, page)) /\
    contains "Bar" page = true /\
    contains "Too many articles reviewed." page = false.
Proof. eexists _, _. vm_compute. repeat split. Qed.

(** * More of the program *)

(** ** TextManager.delete and TextManager.get_all *)

Lemma delete_absent w (title : string) :
  live (docs w) !! title = None ->
  TextManager.delete (VStr title) w = (w, Ok false).
Proof.
  intros Hout. unfold TextManager.delete. run.
  now rewrite (bool_decide_is_Some_false _ Hout).
Qed.

Lemma delete_present w (title : string) content :
  live (docs w) !! title = Some content ->
  TextManager.delete (VStr title) w =
    (set_docs (shelf_sync (Shelf (delete title (live (docs w)))
                                 (durable (docs w)))) w,
     Ok true).
Proof.
  intros Hin. unfold TextManager.delete. run.
  rewrite (bool_decide_is_Some_true _ _ Hin). run. now rewrite Hin.
Qed.

(** X1: delete of a title that is not stored returns False and leaves the
    state as it was; delete of a stored title returns True, removes that
    entry and no other, syncs the shelf, and get_by_title no longer finds
    the title. *)
Theorem delete_removes_or_refuses (w : world) (title : string) :
  (live (docs w) !! title = None ->
     TextManager.delete (VStr title) w = (w, Ok false)) /\
  (forall content,
     live (docs w) !! title = Some content ->
     exists w',
       TextManager.delete (VStr title) w = (w', Ok true) /\
       live (docs w') !! title = None /\
       (forall other, other <> title ->
          live (docs w') !! other = live (docs w) !! other) /\
       durable (docs w') = live (docs w') /\
       sessions w' = sessions w /\ heap w' = heap w /\
       TextManager.get_by_title (VStr title) w' = (w', Ok VNone)).
Proof.
  split; [apply delete_absent |].
  intros content Hin. eexists. split; [now apply delete_present with content |].
  assert (Hgone : live (docs (set_docs (shelf_sync
                    (Shelf (delete title (live (docs w)))
                           (durable (docs w)))) w)) !! title = None)
    by apply lookup_delete_eq.
  split; [exact Hgone |].
  split; [intros other Hother; cbn; now apply lookup_delete_ne |].
  do 3 (split; [reflexivity |]).
  rewrite get_by_title_lookup. now rewrite Hgone.
Qed.

Lemma delete_removes_or_refuses_witness :
  TextManager.delete (VStr "Quux") example_world = (example_world, Ok false) /\
  exists w',
    TextManager.delete (VStr "Foo") example_world = (w', Ok true) /\
    live (docs w') !! "Foo" = None.
Proof.
  destruct (delete_removes_or_refuses example_world "Quux") as [Habsent _].
  destruct (delete_removes_or_refuses example_world "Foo") as [_ Hpresent].
  split; [apply Habsent; reflexivity |].
  destruct (Hpresent (VStr "Bar") eq_refl) as (w' & Hrun & Hgone & _).
  exists w'. split; [exact Hrun | exact Hgone].
Defined.

(** X2: create of a new title followed by delete of that title gives back
    the store of documents as it was, and the whole state when the shelf
    was synced; delete of a stored title followed by create puts the new
    content under the title, which create alone never does. *)
Theorem create_delete_compose (w : world) (title : string) (content : value) :
  (live (docs w) !! title = None ->
     exists w1 w2,
       TextManager.create (VStr title) content w = (w1, Ok true) /\
       TextManager.delete (VStr title) w1 = (w2, Ok true) /\
       live (docs w2) = live (docs w) /\
       (durable (docs w) = live (docs w) -> w2 = w)) /\
  (forall old,
     live (docs w) !! title = Some old ->
     exists w1 w2,
       TextManager.delete (VStr title) w = (w1, Ok true) /\
       TextManager.create (VStr title) content w1 = (w2, Ok true) /\
       live (docs w2) = <[title := content]> (live (docs w))).
Proof.
  split.
  - intros Hout. eexists _, _.
    split; [now apply create_absent |].
    split; [apply delete_present with content; apply lookup_insert_eq |].
    assert (Hback : delete title (<[title := content]> (live (docs w)))
                    = live (docs w)) by now apply delete_insert_id.
    split; [cbn; exact Hback |].
    intros Hsynced. destruct w as [[l d] ss h us n]. cbn in *.
    rewrite Hback. now subst d.
  - intros old Hin. eexists _, _.
    split; [now apply delete_present with old |].
    split; [apply create_absent; apply lookup_delete_eq |].
    cbn. apply insert_delete_eq.
Qed.

Lemma create_delete_compose_witness :
  (exists w1 w2,
     TextManager.create (VStr "Quux") (VStr "Baz") example_world
       = (w1, Ok true) /\
     TextManager.delete (VStr "Quux") w1 = (w2, Ok true) /\
     w2 = example_world) /\
  (exists w1 w2,
     TextManager.delete (VStr "Foo") example_world = (w1, Ok true) /\
     TextManager.create (VStr "Foo") (VStr "Baz") w1 = (w2, Ok true) /\
     live (docs w2) !! "Foo" = Some (VStr "Baz")).
Proof.
  destruct (create_delete_compose example_world "Quux" (VStr "Baz"))
    as [Hnew _].
  destruct (create_delete_compose example_world "Foo" (VStr "Baz"))
    as [_ Hold].
  split.
  - destruct (Hnew eq_refl) as (w1 & w2 & Hcreate & Hdelete & _ & Hsame).
    exists w1, w2. split; [exact Hcreate |]. split; [exact Hdelete |].
    apply Hsame. reflexivity.
  - destruct (Hold (VStr "Bar") eq_refl)
      as (w1 & w2 & Hdelete & Hcreate & Hlive).
    exists w1, w2. split; [exact Hdelete |]. split; [exact Hcreate |].
    rewrite Hlive. reflexivity.
Defined.

Lemma get_all_items w :
  TextManager.get_all w =
    (w, Ok (map (fun '(title, content) => TextModel (VStr title) content)
                (shelf_items (docs w)))).
Proof. reflexivity. Qed.

(** X3: get_all reads only and returns one TextModel for each stored
    document and nothing else: a title and a content are in the list
    exactly when the content is stored under the title, and the list is as
    long as the store is large.  A document whose content is empty is in
    the list, while get_by_title does not find it. *)
Theorem get_all_is_the_store (w : world) :
  exists all_texts,
    TextManager.get_all w = (w, Ok all_texts) /\
    length all_texts = size (live (docs w)) /\
    (forall doc, doc ∈ all_texts ->
       exists title content, doc = TextModel (VStr title) content) /\
    (forall title content,
       TextModel (VStr title) content ∈ all_texts <->
       live (docs w) !! title = Some content) /\
    (forall title content,
       live (docs w) !! title = Some content -> truthy content = false ->
       TextModel (VStr title) content ∈ all_texts /\
       TextManager.get_by_title (VStr title) w = (w, Ok VNone)).
Proof.
  eexists. split; [apply get_all_items |].
  assert (Hiff : forall title content,
            TextModel (VStr title) content
              ∈ map (fun '(title, content) => TextModel (VStr title) content)
                    (shelf_items (docs w))
            <-> live (docs w) !! title = Some content).
  { intros title content. unfold shelf_items.
    rewrite <- elem_of_map_to_list. split.
    - intros Hin. apply list_elem_of_fmap in Hin as [[t c] [Heq Hin]].
      now injection Heq as -> ->.
    - intros Hin. apply list_elem_of_fmap. now exists (title, content). }
  split; [rewrite length_map; apply length_map_to_list |].
  split.
  { intros doc Hin. apply list_elem_of_fmap in Hin as [[t c] [-> _]]. eauto. }
  split; [exact Hiff |].
  intros title content Hin Hfalse. split; [now apply Hiff |].
  rewrite get_by_title_lookup. now rewrite Hin, Hfalse.
Qed.

Lemma get_all_is_the_store_witness :
  let w := set_docs (shelf_open (<["Blank" := VStr EmptyString]> ∅))
             example_world in
  exists all_texts,
    TextManager.get_all w = (w, Ok all_texts) /\
    TextModel (VStr "Blank") (VStr EmptyString) ∈ all_texts /\
    TextManager.get_by_title (VStr "Blank") w = (w, Ok VNone).
Proof.
  intros w.
  destruct (get_all_is_the_store w)
    as (all_texts & Hrun & _ & _ & _ & Hblank).
  exists all_texts. split; [exact Hrun |].
  apply Hblank; reflexivity.
Defined.

(** ** SessionManager.update and the shelves *)

Lemma update_run w r s :
  heap w !! r = Some s ->
  SessionManager.update r w =
    (set_sessions
       (shelf_sync (Shelf (<[session_id s := s]> (live (sessions w)))
                          (durable (sessions w)))) w,
     Ok tt).
Proof.
  intros Hlive. unfold SessionManager.update, deref. run.
  now rewrite Hlive.
Qed.

(** X4: update of a live session stores its attributes under its id and
    syncs, touching no session object and no document; a get_or_create
    with that id afterwards, also after the store is opened again, gives
    another object with the same attributes and does not write. *)
Theorem update_then_get_or_create (w : world) (r : loc) (s : SessionModel) :
  heap w !! r = Some s ->
  exists w1 w2 r2,
    SessionManager.update r w = (w1, Ok tt) /\
    heap w1 = heap w /\ docs w1 = docs w /\
    live (sessions w1) = <[session_id s := s]> (live (sessions w)) /\
    durable (sessions w1) = live (sessions w1) /\
    SessionManager.init w1 = (w1, Ok tt) /\
    SessionManager.get_or_create (VStr (session_id s)) w1 = (w2, Ok r2) /\
    r2 <> r /\ heap w2 !! r2 = Some s /\ heap w2 !! r = Some s /\
    sessions w2 = sessions w1.
Proof.
  intros Hlive. eexists _, _, _.
  split; [exact (update_run w r s Hlive) |].
  do 4 (split; [reflexivity |]).
  split; [reflexivity |].
  split.
  { apply get_or_create_stored. cbn. now rewrite lookup_insert_eq. }
  assert (Hfresh : fresh (dom (heap w)) <> r).
  { intros <-. rewrite fresh_loc_unused in Hlive. discriminate. }
  split; [exact Hfresh |].
  split; [cbn; apply lookup_insert_eq |].
  split; [cbn; now rewrite lookup_insert_ne | reflexivity].
Qed.

Lemma update_then_get_or_create_witness :
  exists w1 w2 r2,
    SessionManager.update 0%nat example_world = (w1, Ok tt) /\
    SessionManager.get_or_create (VStr "a1") w1 = (w2, Ok r2) /\
    r2 <> 0%nat /\
    heap w2 !! r2 = Some {| session_id := "a1";
                            amount_of_viewed_pages := 3 |}.
Proof.
  destruct (update_then_get_or_create example_world 0%nat
              {| session_id := "a1"; amount_of_viewed_pages := 3 |} eq_refl)
    as (w1 & w2 & r2 & Hupdate & _ & _ & _ & _ & _ & Hget & Hother & Hcopy
        & _).
  exists w1, w2, r2. auto.
Defined.

(** *** What the handlers and the managers leave alone *)

Lemma create_frame title content w :
  sessions (fst (TextManager.create title content w)) = sessions w /\
  uuid_calls (fst (TextManager.create title content w)) = uuid_calls w /\
  uuids (fst (TextManager.create title content w)) = uuids w.
Proof.
  unfold TextManager.create. run.
  destruct (shelf_contains (docs w) title) as [[] | e |]; try (now idtac).
  run. now destruct (shelf_setitem (docs w) title content).
Qed.

Lemma add_world self (request_get_data : request) w :
  fst (TextController.add self request_get_data w) = w \/
  fst (TextController.add self request_get_data w)
    = fst (TextManager.create (take_one_or_None request_get_data "title")
             (take_one_or_None request_get_data "content") w).
Proof.
  unfold TextController.add, call_render.
  destruct (negb (truthy (take_one_or_None request_get_data "title"))
            || negb (truthy (take_one_or_None request_get_data "content"))).
  - left. run.
    now destruct (snd (@render (TextController.add_view self) _)).
  - right. unfold bind at 1. unfold bind at 1.
    destruct (TextManager.create _ _ w) as [w1 [created | e |]];
      try reflexivity.
    run. now destruct (snd (@render (TextController.add_view self) _)).
Qed.

Lemma index_frame self (request_get_data : request) w :
  docs (fst (TextController.index self request_get_data w)) = docs w /\
  sessions (fst (TextController.index self request_get_data w))
    = sessions w /\
  uuid_calls (fst (TextController.index self request_get_data w))
    = uuid_calls w /\
  forall r, request_get_data !! "SESSION" <> Some (VSession r) ->
    heap (fst (TextController.index self request_get_data w)) !! r
      = heap w !! r.
Proof.
  destruct (index_heap self request_get_data w)
    as [-> | (r0 & s & doc & Hsession & _ & _ & _ & _ & ->)].
  - repeat split.
  - do 3 (split; [reflexivity |]).
    intros r Hother. cbn. apply lookup_insert_ne. congruence.
Qed.

Lemma add_frame self (request_get_data : request) w :
  sessions (fst (TextController.add self request_get_data w)) = sessions w /\
  heap (fst (TextController.add self request_get_data w)) = heap w /\
  uuid_calls (fst (TextController.add self request_get_data w))
    = uuid_calls w.
Proof.
  split; [| split; [apply add_heap |]].
  - destruct (add_world self request_get_data w) as [-> | ->];
      [reflexivity | apply create_frame].
  - destruct (add_world self request_get_data w) as [-> | ->];
      [reflexivity | apply create_frame].
Qed.

(** X5: index writes to neither shelf and draws no uuid: all it can change
    is the counter of the session of its request.  add writes to no session,
    stored or live, and draws no uuid: all it can change is the store of
    documents. *)
Theorem handlers_frame (self : TextController.t) (request_get_data : request)
    (w : world) :
  (docs (fst (TextController.index self request_get_data w)) = docs w /\
   sessions (fst (TextController.index self request_get_data w))
     = sessions w /\
   uuid_calls (fst (TextController.index self request_get_data w))
     = uuid_calls w /\
   forall r, request_get_data !! "SESSION" <> Some (VSession r) ->
     heap (fst (TextController.index self request_get_data w)) !! r
       = heap w !! r) /\
  (sessions (fst (TextController.add self request_get_data w)) = sessions w /\
   heap (fst (TextController.add self request_get_data w)) = heap w /\
   uuid_calls (fst (TextController.add self request_get_data w))
     = uuid_calls w).
Proof. split; [apply index_frame | apply add_frame]. Qed.

Lemma handlers_frame_witness :
  heap (fst (TextController.index controller example_request example_world))
    !! 7%nat
  = heap example_world !! 7%nat.
Proof.
  destruct (handlers_frame controller example_request example_world)
    as [(_ & _ & _ & Hothers) _].
  apply Hothers. discriminate.
Defined.

(** *** Synced shelves *)

Lemma create_synced title content w :
  durable (docs w) = live (docs w) ->
  durable (docs (fst (TextManager.create title content w)))
    = live (docs (fst (TextManager.create title content w))).
Proof.
  intros Hsynced. unfold TextManager.create. run.
  destruct (shelf_contains (docs w) title) as [[] | e |]; try exact Hsynced.
  run. now destruct (shelf_setitem (docs w) title content).
Qed.

Lemma delete_world title w :
  sessions (fst (TextManager.delete title w)) = sessions w /\
  (durable (docs w) = live (docs w) ->
   durable (docs (fst (TextManager.delete title w)))
     = live (docs (fst (TextManager.delete title w)))).
Proof.
  unfold TextManager.delete. run.
  destruct (shelf_contains (docs w) title) as [[] | e |]; try (now idtac).
  run. now destruct (shelf_delitem (docs w) title).
Qed.

Lemma get_or_create_world sid w :
  docs (fst (SessionManager.get_or_create sid w)) = docs w /\
  (durable (sessions w) = live (sessions w) ->
   durable (sessions (fst (SessionManager.get_or_create sid w)))
     = live (sessions (fst (SessionManager.get_or_create sid w)))).
Proof.
  destruct (shelf_get (sessions w) sid) as [[stored |] | e |] eqn:Hget.
  - now rewrite (get_or_create_stored w sid stored Hget).
  - now rewrite (get_or_create_missing w sid Hget).
  - unfold SessionManager.get_or_create. run. now rewrite Hget.
  - unfold SessionManager.get_or_create. run. now rewrite Hget.
Qed.

Lemma update_world session w :
  docs (fst (SessionManager.update session w)) = docs w /\
  (durable (sessions w) = live (sessions w) ->
   durable (sessions (fst (SessionManager.update session w)))
     = live (sessions (fst (SessionManager.update session w)))).
Proof.
  unfold SessionManager.update, deref. run.
  now destruct (heap w !! session).
Qed.

(** X6: no method returns with a write that is not on file: when both
    shelves are synced they are synced after index, add, get_or_create,
    update, create and delete, whatever the arguments and the outcome; and
    on such a state opening the session store again, as the entry point
    does for each request, changes nothing. *)
Theorem operations_keep_synced (w : world) :
  synced w ->
  (forall o, synced (step o w)) /\
  (forall title content, synced (fst (TextManager.create title content w))) /\
  (forall title, synced (fst (TextManager.delete title w))) /\
  SessionManager.init w = (w, Ok tt).
Proof.
  intros [Hdocs Hsessions]. repeat apply conj.
  - intros [self d | self d | sid | session]; cbn [step]; unfold synced.
    + destruct (index_frame self d w) as (-> & -> & _). now split.
    + destruct (add_frame self d w) as (-> & _).
      split; [| exact Hsessions].
      destruct (add_world self d w) as [-> | ->];
        [exact Hdocs | now apply create_synced].
    + destruct (get_or_create_world sid w) as [-> Hkeeps]. split; auto.
    + destruct (update_world session w) as [-> Hkeeps]. split; auto.
  - intros title content. unfold synced.
    destruct (create_frame title content w) as (-> & _).
    split; [now apply create_synced | exact Hsessions].
  - intros title. unfold synced.
    destruct (delete_world title w) as [-> Hkeeps]. split; auto.
  - unfold SessionManager.init, modify, shelf_open.
    destruct w as [dd [l d] h us n]. cbn in *. now subst d.
Qed.

Lemma operations_keep_synced_witness :
  synced (step (OpAdd controller example_add_duplicate) example_world) /\
  SessionManager.init example_world = (example_world, Ok tt).
Proof.
  destruct (operations_keep_synced example_world (conj eq_refl eq_refl))
    as (Hstep & _ & _ & Hinit).
  split; [apply Hstep | exact Hinit].
Defined.

(** ** Router.register *)

Lemma register_all_other (l : list (string * handler)) :
  forall (r : Router.t) (path : string),
    path ∉ map fst l ->
    Router._paths (register_all l r) !! path = Router._paths r !! path.
Proof.
  induction l as [| [p callback] rest IH]; intros r path Hnotin;
    [reflexivity |].
  cbn in Hnotin. apply not_elem_of_cons in Hnotin as [Hne Hrest].
  cbn [register_all fold_left]. fold (register_all rest).
  rewrite (IH _ path Hrest). cbn. apply lookup_insert_ne. congruence.
Qed.

(** X7: after any run of registrations on a router, a path that the run
    does not name is routed as before (to the 404 response on a new
    router), and a path that it names is routed to the handler of its last
    registration in the run. *)
Theorem register_all_last_wins (l : list (string * handler)) (r : Router.t)
    (path : string) (data : request) (w : world) :
  (path ∉ map fst l ->
     Router.route (register_all l r) path data w
       = Router.route r path data w) /\
  (path ∉ map fst l ->
     Router.route (register_all l Router.init) path data w
       = (w, Ok (404, "Nooo 404!"))) /\
  (forall (before : list (string * handler)) (callback : handler) after,
     l = (before ++ (path, callback) :: after)%list ->
     path ∉ map fst after ->
     Router.route (register_all l r) path data w = callback data w).
Proof.
  repeat apply conj.
  - intros Hnotin. unfold Router.route.
    now rewrite (register_all_other l r path Hnotin).
  - intros Hnotin. unfold Router.route.
    now rewrite (register_all_other l Router.init path Hnotin).
  - intros before callback after -> Hnotin. unfold Router.route, register_all.
    rewrite fold_left_app. cbn [fold_left].
    fold (register_all before r).
    fold (register_all after
            (Router.register (register_all before r) path callback)).
    rewrite (register_all_other after _ path Hnotin). cbn.
    now rewrite lookup_insert_eq.
Qed.

Lemma register_all_last_wins_witness :
  let first : handler := fun _ => ret (200, "first") in
  let second : handler := fun _ => ret (200, "second") in
  let l := [("/a", first); ("/b", first); ("/a", second)] in
  Router.route (register_all l Router.init) "/a" ∅ example_world
    = (example_world, Ok (200, "second")) /\
  Router.route (register_all l Router.init) "/c" ∅ example_world
    = (example_world, Ok (404, "Nooo 404!")).
Proof.
  intros first second l.
  destruct (register_all_last_wins l Router.init "/a" ∅ example_world)
    as (_ & _ & Hlast).
  destruct (register_all_last_wins l Router.init "/c" ∅ example_world)
    as (_ & Hnone & _).
  split.
  - apply (Hlast [("/a", first); ("/b", first)] second []); [reflexivity |].
    apply not_elem_of_nil.
  - apply Hnone. intros Hin. apply list_elem_of_In in Hin.
    cbn in Hin. intuition discriminate.
Defined.

(** ** The index page *)

Lemma prefix_refl (x : string) : String.prefix x x = true.
Proof.
  induction x as [| a x IH]; [reflexivity |]. cbn.
  destruct (Ascii.ascii_dec a a); [exact IH | contradiction].
Qed.

Lemma contains_refl (x : string) : contains x x = true.
Proof.
  destruct x as [| a x]; [reflexivity |].
  cbn [contains]. now rewrite prefix_refl.
Qed.

Lemma contains_join (sep : string) (l : list string) (x : string) :
  x ∈ l -> contains x (join sep l) = true.
Proof.
  induction l as [| a rest IH]; intros Hin; [now apply elem_of_nil in Hin |].
  destruct rest as [| b rest].
  - apply list_elem_of_singleton in Hin as ->. apply contains_refl.
  - change (join sep (a :: b :: rest))
      with (a +:+ sep +:+ join sep (b :: rest)).
    apply elem_of_cons in Hin as [-> | Hin]; [apply contains_head |].
    do 2 apply contains_app_r. now apply IH.
Qed.

(** The list items of the index page for the store of [w]. *)
Lemma index_page_listing (request_get_data : request) (w : world)
    (r : loc) (s : SessionModel) :
  query_dict request_get_data ->
  request_get_data !! "SESSION" = Some (VSession r) ->
  heap w !! r = Some s ->
  docs_are_text w ->
  exists w' e c,
    TextController.index controller request_get_data w
      = (w', Ok (200, page e c
                        (join nl (map (fun '(title, _) =>
                                         "<li>" +:+ title +:+ "</li>")
                                      (shelf_items (docs w)))))).
Proof.
  intros Hquery Hsession Hlive Htext.
  set (lis := map (fun '(title, _) => "<li>" +:+ title +:+ "</li>")
                  (shelf_items (docs w))).
  destruct (Z_le_gt_dec (amount_of_viewed_pages s) 3) as [Hfew | Hmany].
  2: { rewrite (index_blocked controller request_get_data w r s Hsession
                  Hlive Hmany).
       eexists _, _, _. f_equal.
       apply respond_index_context with (lis := lis);
         [apply mapM_format_li_texts | reflexivity | reflexivity]. }
  destruct (take_one_of_query_cases request_get_data "title" Hquery)
    as [Hnone | [t Ht]]; [discriminate | |].
  - rewrite (index_gate_open controller request_get_data w r s Hsession
               Hlive VNone Hfew) by now rewrite Hnone.
    eexists _, _, _. f_equal.
    apply respond_index_context with (lis := lis);
      [apply mapM_format_li_texts | reflexivity | reflexivity].
  - pose proof (get_by_title_lookup w t) as Hdoc. rewrite <- Ht in Hdoc at 1.
    assert (Hpage : exists c,
              render_content
                match live (docs w) !! t with
                | Some content =>
                    if truthy content then TextModel (VStr t) content
                    else VNone
                | None => VNone
                end = Ok c).
    { destruct (live (docs w) !! t) as [content |] eqn:Hin;
        [| now eexists].
      pose proof (map_Forall_lookup_1 _ _ _ _ Htext Hin) as Hstr.
      cbn beta in Hstr. destruct content; try discriminate.
      destruct (truthy (VStr s0)); now eexists. }
    destruct Hpage as [c Hc].
    rewrite (index_gate_open controller request_get_data w r s Hsession
               Hlive _ Hfew Hdoc).
    eexists _, _, c. f_equal.
    apply respond_index_context with (lis := lis);
      [apply mapM_format_li_texts | exact Hc | reflexivity].
Qed.

(** X8: whatever the counter of the session says, the page index returns
    has the list item of every stored title, written as it is stored. *)
Theorem index_lists_every_title (request_get_data : request) (w : world)
    (r : loc) (s : SessionModel) :
  query_dict request_get_data ->
  request_get_data !! "SESSION" = Some (VSession r) ->
  heap w !! r = Some s ->
  docs_are_text w ->
  exists w' body,
    TextController.index controller request_get_data w
      = (w', Ok (200, body)) /\
    forall title content,
      live (docs w) !! title = Some content ->
      contains ("<li>" +:+ title +:+ "</li>") body = true.
Proof.
  intros Hquery Hsession Hlive Htext.
  destruct (index_page_listing request_get_data w r s Hquery Hsession Hlive
              Htext) as (w' & e & c & Hrun).
  eexists _, _. split; [exact Hrun |].
  intros title content Hin. unfold page.
  do 5 apply contains_app_r. apply contains_app_l. apply contains_join.
  apply list_elem_of_fmap. exists (title, content). split; [reflexivity |].
  now apply elem_of_map_to_list.
Qed.

Lemma index_lists_every_title_witness :
  exists w' body,
    TextController.index controller example_request blocked_world
      = (w', Ok (200, body)) /\
    contains "<li>Foo</li>" body = true.
Proof.
  destruct (index_lists_every_title example_request blocked_world 0%nat
              {| session_id := "a1"; amount_of_viewed_pages := 4 |})
    as (w' & body & Hrun & Hitems).
  - query_dict_literal.
  - reflexivity.
  - reflexivity.
  - apply map_Forall_insert_2; [reflexivity | apply map_Forall_empty].
  - exists w', body. split; [exact Hrun |].
    apply (Hitems "Foo" (VStr "Bar")). reflexivity.
Defined.

(** X9: a view that finds nothing does not count: with a counter of at
    most 3, when the request has no title, or a title that is not stored,
    or a title whose stored content is empty, index answers 200 with the
    page that asks what to read, without an error, and leaves the whole
    state as it was. *)
Theorem index_miss_keeps_counter (request_get_data : request) (w : world)
    (r : loc) (s : SessionModel) :
  request_get_data !! "SESSION" = Some (VSession r) ->
  heap w !! r = Some s ->
  amount_of_viewed_pages s <= 3 ->
  (take_one_or_None request_get_data "title" = VNone \/
   exists t,
     take_one_or_None request_get_data "title" = VStr t /\
     (live (docs w) !! t = None \/
      exists content,
        live (docs w) !! t = Some content /\ truthy content = false)) ->
  TextController.index controller request_get_data w =
    (w, Ok (200, page EmptyString "What do you want read?"
                   (join nl (map (fun '(title, _) =>
                                    "<li>" +:+ title +:+ "</li>")
                                 (shelf_items (docs w)))))).
Proof.
  intros Hsession Hlive Hfew Hmiss.
  assert (Hnone : TextManager.get_by_title
                    (take_one_or_None request_get_data "title") w
                  = (w, Ok VNone)).
  { destruct Hmiss as [-> | (t & -> & [Hout | (content & Hin & Hfalse)])].
    - reflexivity.
    - rewrite get_by_title_lookup. now rewrite Hout.
    - rewrite get_by_title_lookup. now rewrite Hin, Hfalse. }
  rewrite (index_gate_open controller request_get_data w r s Hsession Hlive
             VNone Hfew Hnone).
  cbn [truthy]. f_equal.
  apply respond_index_context;
    [apply mapM_format_li_texts | reflexivity | reflexivity].
Qed.

Lemma index_miss_keeps_counter_witness :
  TextController.index controller
    (<["title" := VList [VStr "Quux"]]> (<["SESSION" := VSession 0%nat]> ∅))
    example_world
  = (example_world,
     Ok (200, page EmptyString "What do you want read?" "<li>Foo</li>")).
Proof.
  apply (index_miss_keeps_counter
           (<["title" := VList [VStr "Quux"]]>
              (<["SESSION" := VSession 0%nat]> ∅))
           example_world 0%nat
           {| session_id := "a1"; amount_of_viewed_pages := 3 |}).
  - reflexivity.
  - reflexivity.
  - cbn. lia.
  - right. exists "Quux". split; [reflexivity | left; reflexivity].
Defined.

(** A view of a stored text under the gate. *)
Lemma index_shows_content (request_get_data : request) (w : world)
    (r : loc) (s : SessionModel) (t c : string) :
  request_get_data !! "SESSION" = Some (VSession r) ->
  heap w !! r = Some s ->
  amount_of_viewed_pages s <= 3 ->
  take_one_or_None request_get_data "title" = VStr t ->
  live (docs w) !! t = Some (VStr c) -> c <> EmptyString ->
  exists body,
    TextController.index controller request_get_data w
      = (set_heap (<[r := viewed_once_more s]> (heap w)) w, Ok (200, body)) /\
    contains c body = true.
Proof.
  intros Hsession Hlive Hfew Htitle Hin Hne.
  pose proof (truthy_VStr c Hne) as Htrue.
  eexists. split.
  - rewrite (index_found controller request_get_data w r s Hsession Hlive
               t (VStr c) Hfew Htitle Hin Htrue).
    f_equal.
    apply respond_index_context;
      [apply mapM_format_li_texts | reflexivity | reflexivity].
  - unfold page. do 3 apply contains_app_r. apply contains_app_l.
    do 6 apply contains_app_r. apply contains_head.
Qed.

(** X10: add and index compose.  After an add request with a title that
    is not stored and a content, both non-empty, a view of that title by a
    session with a counter of at most 3 shows that content and counts.
    After an add request with a title that is stored, the state is as it
    was, so a view still shows the content that was there before. *)
Theorem add_then_view (request_add request_view : request) (w : world)
    (r : loc) (s : SessionModel) (t c : string) :
  take_one_or_None request_add "title" = VStr t ->
  take_one_or_None request_add "content" = VStr c ->
  t <> EmptyString -> c <> EmptyString ->
  request_view !! "SESSION" = Some (VSession r) ->
  heap w !! r = Some s ->
  amount_of_viewed_pages s <= 3 ->
  take_one_or_None request_view "title" = VStr t ->
  (live (docs w) !! t = None ->
     exists w1 w2 body,
       TextController.add controller request_add w
         = (w1, Ok (200, redirect_page)) /\
       TextController.index controller request_view w1
         = (w2, Ok (200, body)) /\
       contains c body = true /\
       heap w2 !! r = Some (viewed_once_more s)) /\
  (forall old,
     live (docs w) !! t = Some (VStr old) -> old <> EmptyString ->
     exists w2 body,
       TextController.add controller request_add w
         = (w, Ok (200, redirect_page)) /\
       TextController.index controller request_view w
         = (w2, Ok (200, body)) /\
       contains old body = true).
Proof.
  intros Htitle Hcontent Ht Hc Hsession Hlive Hfew Hview.
  pose proof (truthy_VStr t Ht) as Httrue.
  pose proof (truthy_VStr c Hc) as Hctrue.
  split.
  - intros Hout.
    pose proof (add_created controller request_add w t Htitle) as Hadd.
    rewrite Htitle, Hcontent in Hadd.
    specialize (Hadd Httrue Hctrue Hout). cbn zeta in Hadd.
    destruct (index_shows_content request_view
                (set_docs (shelf_sync
                             (Shelf (<[t := VStr c]> (live (docs w)))
                                    (durable (docs w)))) w)
                r s t c Hsession Hlive Hfew Hview)
      as (body & Hindex & Hshown); [apply lookup_insert_eq | exact Hc |].
    eexists _, _, body. split; [exact Hadd |]. split; [exact Hindex |].
    split; [exact Hshown |]. cbn. apply lookup_insert_eq.
  - intros old Hin Hold.
    pose proof (add_duplicate controller request_add w t (VStr old) Htitle)
      as Hadd.
    rewrite Htitle, Hcontent in Hadd. specialize (Hadd Httrue Hctrue Hin).
    destruct (index_shows_content request_view w r s t old Hsession Hlive
                Hfew Hview Hin Hold) as (body & Hindex & Hshown).
    eexists _, body. split; [exact Hadd |]. split; [exact Hindex |].
    exact Hshown.
Qed.

Lemma add_then_view_witness :
  exists w2 body,
    TextController.add controller example_add_duplicate example_world
      = (example_world, Ok (200, redirect_page)) /\
    TextController.index controller example_request example_world
      = (w2, Ok (200, body)) /\
    contains "Bar" body = true.
Proof.
  destruct (add_then_view example_add_duplicate example_request example_world
              0%nat {| session_id := "a1"; amount_of_viewed_pages := 3 |}
              "Foo" "Baz" eq_refl eq_refl ltac:(discriminate)
              ltac:(discriminate) eq_refl eq_refl ltac:(cbn; lia) eq_refl)
    as [_ Hstored].
  apply (Hstored "Bar"); [reflexivity | discriminate].
Defined.

(** ** The entry point, request by request *)

Lemma application_with_route (path : string)
    (query cookies : gmap string value) (w w1 w2 : world) (r : loc)
    (code : Z) (body : string) (s2 : SessionModel) :
  SessionManager.get_or_create (take_one_or_None cookies "session_id")
    (set_sessions (shelf_open (durable (sessions w))) w) = (w1, Ok r) ->
  Router.route router path (<["SESSION" := VSession r]> query) w1
    = (w2, Ok (code, body)) ->
  heap w2 !! r = Some s2 ->
  application path query cookies w =
    (set_sessions
       (shelf_sync (Shelf (<[session_id s2 := s2]> (durable (sessions w2)))
                          (durable (sessions w2)))) w2,
     Ok (http_status code,
         [("Content-Type", "text/html");
          ("Set-Cookie", "session_id=" +:+ session_id s2)],
         [body])).
Proof.
  intros Hcreate Hroute Hlive2. unfold application.
  unfold bind at 1. cbn [SessionManager.init modify].
  rewrite (bind_ok _ _ _ _ _ Hcreate).
  rewrite (bind_ok _ _ _ _ _ Hroute).
  unfold SessionManager.update, SessionManager.init, deref. run.
  rewrite Hlive2. run. now rewrite Hlive2.
Qed.

(** What the wired router does to the session of a request of the entry
    point, and what it leaves alone. *)
Lemma route_router_session (path : string) (data : request) w r s :
  query_dict data -> data !! "SESSION" = Some (VSession r) ->
  heap w !! r = Some s -> docs_are_text w ->
  exists w' code body s',
    Router.route router path data w = (w', Ok (code, body)) /\
    docs_are_text w' /\
    heap w' !! r = Some s' /\
    (s' = s \/ path = "/text" /\ s' = viewed_once_more s) /\
    sessions w' = sessions w /\ uuid_calls w' = uuid_calls w /\
    uuids w' = uuids w /\
    (durable (docs w) = live (docs w) ->
     durable (docs w') = live (docs w')).
Proof.
  intros Hquery Hsession Hlive Htext.
  destruct (decide (path = "/")) as [-> | Hroot].
  { exists w, 200, "Index HI!", s. repeat split; auto. }
  destruct (decide (path = "/text")) as [-> | Hindex].
  { change (Router.route router "/text" data w)
      with (TextController.index controller data w).
    destruct (index_returns_page data w r s Hquery Hsession Hlive Htext)
      as (w' & body & Hrun).
    destruct (index_heap controller data w)
      as [Hsame | (r0 & s0 & doc & Hsession0 & Hlive0 & _ & _ & _ & Hmoved)];
      rewrite Hrun in *; cbn [fst] in *.
    - subst w'. exists w, 200, body, s. repeat split; auto.
    - assert (r0 = r) as -> by congruence.
      assert (s0 = s) as -> by congruence. subst w'.
      eexists _, 200, body, (viewed_once_more s).
      split; [reflexivity |]. split; [exact Htext |].
      split; [cbn; apply lookup_insert_eq |].
      split; [right; now split |]. repeat split; auto. }
  destruct (decide (path = "/text/add")) as [-> | Hadd].
  { change (Router.route router "/text/add" data w)
      with (TextController.add controller data w).
    destruct (add_returns_redirect data w Hquery) as (w' & Hrun).
    pose proof (add_keeps_docs_text controller data w Hquery Htext) as Htext'.
    pose proof (add_frame controller data w) as (Hsessions & Hheap & Huuid).
    pose proof (add_world controller data w) as Hworld.
    rewrite Hrun in *. cbn [fst] in *.
    exists w', 200, redirect_page, s.
    split; [reflexivity |]. split; [exact Htext' |].
    split; [now rewrite Hheap |]. split; [now left |].
    split; [exact Hsessions |]. split; [exact Huuid |].
    destruct Hworld as [-> | ->]; [now split |].
    split; [apply create_frame |]. apply create_synced. }
  exists w, 404, "Nooo 404!", s.
  split.
  { unfold Router.route, router, Router.register, Router.init.
    cbn [Router._paths]. rewrite !lookup_insert_ne by congruence.
    now rewrite lookup_empty. }
  repeat split; auto.
Qed.

Lemma init_synced w :
  durable (sessions w) = live (sessions w) ->
  set_sessions (shelf_open (durable (sessions w))) w = w.
Proof.
  intros Hsynced. destruct w as [dd [l d] h us n]. cbn in *. now subst d.
Qed.

(** The session the entry point works with, on a well-formed state. *)
Lemma application_session (cookies : gmap string value) (w : world) :
  query_dict cookies -> well_formed w ->
  exists w1 r s1,
    SessionManager.get_or_create (take_one_or_None cookies "session_id")
      (set_sessions (shelf_open (durable (sessions w))) w) = (w1, Ok r) /\
    heap w1 !! r = Some s1 /\ docs w1 = docs w /\
    durable (sessions w1) = live (sessions w1) /\
    map_Forall (fun k s => session_id s = k) (live (sessions w1)) /\
    ((exists k, take_one_or_None cookies "session_id" = VStr k /\
                live (sessions w) !! k = Some s1 /\
                sessions w1 = sessions w /\ uuid_calls w1 = uuid_calls w) \/
     ((take_one_or_None cookies "session_id" = VNone \/
       exists k, take_one_or_None cookies "session_id" = VStr k /\
                 live (sessions w) !! k = None) /\
      s1 = new_session w /\
      live (sessions w1)
        = <[session_id (new_session w) := new_session w]>
            (live (sessions w)) /\
      uuid_calls w1 = S (uuid_calls w))).
Proof.
  intros Hcookies ((Hdocs & Hsessions) & Hkeyed & Htext).
  rewrite (init_synced w Hsessions).
  destruct (take_one_of_query_cases cookies "session_id" Hcookies)
    as [Hnone | [k Hk]]; [discriminate | |].
  - rewrite Hnone. rewrite (get_or_create_missing w VNone eq_refl).
    eexists _, _, _. split; [reflexivity |].
    split; [cbn; apply lookup_insert_eq |].
    split; [reflexivity |]. split; [reflexivity |].
    split; [cbn; now apply map_Forall_insert_2 |].
    right. repeat split. now left.
  - rewrite Hk. destruct (live (sessions w) !! k) as [stored |] eqn:Hin.
    + rewrite (get_or_create_stored w (VStr k) stored)
        by (cbn [shelf_get]; now rewrite Hin).
      eexists _, _, _. split; [reflexivity |].
      split; [cbn; apply lookup_insert_eq |].
      split; [reflexivity |]. split; [exact Hsessions |].
      split; [exact Hkeyed |].
      left. exists k. repeat split. exact Hin.
    + rewrite (get_or_create_missing w (VStr k))
        by (cbn [shelf_get]; now rewrite Hin).
      eexists _, _, _. split; [reflexivity |].
      split; [cbn; apply lookup_insert_eq |].
      split; [reflexivity |]. split; [reflexivity |].
      split; [cbn; now apply map_Forall_insert_2 |].
      right. repeat split. right. now exists k.
Qed.

(** One request on a well-formed state, step by step. *)
Lemma application_answer (path : string) (query cookies : gmap string value)
    (w : world) :
  query_dict query -> query_dict cookies -> well_formed w ->
  exists w1 r s1 w2 code body s2,
    SessionManager.get_or_create (take_one_or_None cookies "session_id")
      (set_sessions (shelf_open (durable (sessions w))) w) = (w1, Ok r) /\
    heap w1 !! r = Some s1 /\
    ((exists k, take_one_or_None cookies "session_id" = VStr k /\
                live (sessions w) !! k = Some s1 /\
                sessions w1 = sessions w /\ uuid_calls w1 = uuid_calls w) \/
     ((take_one_or_None cookies "session_id" = VNone \/
       exists k, take_one_or_None cookies "session_id" = VStr k /\
                 live (sessions w) !! k = None) /\
      s1 = new_session w /\
      live (sessions w1)
        = <[session_id (new_session w) := new_session w]>
            (live (sessions w)) /\
      uuid_calls w1 = S (uuid_calls w))) /\
    (s2 = s1 \/ path = "/text" /\ s2 = viewed_once_more s1) /\
    sessions w2 = sessions w1 /\ uuid_calls w2 = uuid_calls w1 /\
    durable (sessions w1) = live (sessions w1) /\
    map_Forall (fun k s => session_id s = k) (live (sessions w1)) /\
    docs_are_text w2 /\ durable (docs w2) = live (docs w2) /\
    application path query cookies w =
      (set_sessions
         (shelf_sync (Shelf (<[session_id s2 := s2]> (durable (sessions w2)))
                            (durable (sessions w2)))) w2,
       Ok (http_status code,
           [("Content-Type", "text/html");
            ("Set-Cookie", "session_id=" +:+ session_id s2)],
           [body])).
Proof.
  intros Hquery Hcookies Hwf.
  destruct (application_session cookies w Hcookies Hwf)
    as (w1 & r & s1 & Hcreate & Hlive1 & Hdocs1 & Hsynced1 & Hkeyed1 & Hcase).
  destruct Hwf as ((Hdocs & _) & _ & Htext).
  assert (Htext1 : docs_are_text w1)
    by (unfold docs_are_text; now rewrite Hdocs1).
  destruct (route_router_session path (<["SESSION" := VSession r]> query)
              w1 r s1)
    as (w2 & code & body & s2 & Hroute & Htext2 & Hlive2 & Hs2 & Hsessions2
        & Huuid2 & _ & Hdocs2).
  { apply map_Forall_insert_2; [now left | exact Hquery]. }
  { apply lookup_insert_eq. }
  { exact Hlive1. }
  { exact Htext1. }
  exists w1, r, s1, w2, code, body, s2.
  split; [exact Hcreate |]. split; [exact Hlive1 |]. split; [exact Hcase |].
  split; [exact Hs2 |]. split; [exact Hsessions2 |].
  split; [exact Huuid2 |]. split; [exact Hsynced1 |].
  split; [exact Hkeyed1 |]. split; [exact Htext2 |].
  split; [apply Hdocs2; now rewrite Hdocs1 |].
  now apply application_with_route with w1 r.
Qed.

Lemma application_answered (path : string)
    (query cookies : gmap string value) (w : world) :
  query_dict query -> query_dict cookies -> well_formed w ->
  exists w' status headers body,
    application path query cookies w = (w', Ok (status, headers, [body])) /\
    well_formed w'.
Proof.
  intros Hquery Hcookies Hwf.
  destruct (application_answer path query cookies w Hquery Hcookies Hwf)
    as (w1 & r & s1 & w2 & code & body & s2 & _ & _ & _ & _ & Hsessions2 & _
        & Hsynced1 & Hkeyed1 & Htext2 & Hdocs2 & Hrun).
  eexists _, _, _, _. split; [exact Hrun |].
  split; [split; [exact Hdocs2 | reflexivity] |].
  split; [| exact Htext2].
  unfold sessions_keyed. cbn.
  apply map_Forall_insert_2; [reflexivity |].
  now rewrite Hsessions2, Hsynced1.
Qed.

(** X11: on a well-formed state (synced shelves, session records stored
    under their own id, text documents) every request whose query and
    cookies are dictionaries of strings is answered, and the state it
    leaves is well-formed again. *)
Theorem application_keeps_well_formed (path : string)
    (query cookies : gmap string value) (w : world) :
  query_dict query -> query_dict cookies -> well_formed w ->
  exists w' status headers body,
    application path query cookies w = (w', Ok (status, headers, [body])) /\
    well_formed w'.
Proof. apply application_answered. Qed.

Lemma application_keeps_well_formed_witness :
  exists w' status headers body,
    application "/text" scenario_view (scenario_cookie "nobody")
      example_world = (w', Ok (status, headers, [body])) /\
    well_formed w'.
Proof.
  apply application_keeps_well_formed.
  - query_dict_literal.
  - query_dict_literal.
  - split; [split; reflexivity |]. split.
    + apply map_Forall_empty.
    + apply map_Forall_insert_2; [reflexivity | apply map_Forall_empty].
Defined.

(** X12: the Set-Cookie header of every answer names a session that is
    then in the store, live and on file, under that id. *)
Theorem application_cookie_is_stored (path : string)
    (query cookies : gmap string value) (w : world) :
  query_dict query -> query_dict cookies -> well_formed w ->
  exists w' status id body s',
    application path query cookies w =
      (w', Ok (status,
               [("Content-Type", "text/html");
                ("Set-Cookie", "session_id=" +:+ id)],
               [body])) /\
    live (sessions w') !! id = Some s' /\
    durable (sessions w') !! id = Some s' /\
    session_id s' = id.
Proof.
  intros Hquery Hcookies Hwf.
  destruct (application_answer path query cookies w Hquery Hcookies Hwf)
    as (w1 & r & s1 & w2 & code & body & s2 & _ & _ & _ & _ & _ & _ & _ & _
        & _ & _ & Hrun).
  eexists _, _, (session_id s2), _, s2. split; [exact Hrun |].
  cbn. rewrite lookup_insert_eq. auto.
Qed.

Lemma application_cookie_is_stored_witness :
  exists w' status id body s',
    application "/" ∅ ∅ example_world =
      (w', Ok (status,
               [("Content-Type", "text/html");
                ("Set-Cookie", "session_id=" +:+ id)],
               [body])) /\
    live (sessions w') !! id = Some s' /\
    durable (sessions w') !! id = Some s' /\
    session_id s' = id.
Proof.
  apply application_cookie_is_stored.
  - apply map_Forall_empty.
  - apply map_Forall_empty.
  - split; [split; reflexivity |]. split.
    + apply map_Forall_empty.
    + apply map_Forall_insert_2; [reflexivity | apply map_Forall_empty].
Defined.

(** X13: a request with the cookie of a stored session is answered with
    that same id in Set-Cookie and draws no uuid; afterwards the stored
    record of that session is what it was, or has one more viewed page
    when the path is /text; no other stored session is touched. *)
Theorem application_known_cookie (path : string)
    (query cookies : gmap string value) (w : world) (k : string)
    (s0 : SessionModel) :
  query_dict query -> query_dict cookies -> well_formed w ->
  take_one_or_None cookies "session_id" = VStr k ->
  live (sessions w) !! k = Some s0 ->
  exists w' status body s',
    application path query cookies w =
      (w', Ok (status,
               [("Content-Type", "text/html");
                ("Set-Cookie", "session_id=" +:+ k)],
               [body])) /\
    live (sessions w') !! k = Some s' /\
    (s' = s0 \/ path = "/text" /\ s' = viewed_once_more s0) /\
    uuid_calls w' = uuid_calls w /\
    forall other, other <> k ->
      live (sessions w') !! other = live (sessions w) !! other.
Proof.
  intros Hquery Hcookies Hwf Hcookie Hstored.
  pose proof Hwf as (_ & Hkeyed & _).
  pose proof (map_Forall_lookup_1 _ _ _ _ Hkeyed Hstored) as Hid.
  cbn beta in Hid.
  destruct (application_answer path query cookies w Hquery Hcookies Hwf)
    as (w1 & r & s1 & w2 & code & body & s2 & _ & _ & Hcase & Hs2
        & Hsessions2 & Huuid2 & Hsynced1 & _ & _ & _ & Hrun).
  destruct Hcase
    as [(k' & Hk' & Hin & Hsessions1 & Huuid1)
       | ([Hnone | (k' & Hk' & Hout)] & _)];
    [| congruence | congruence].
  assert (k' = k) as -> by congruence.
  assert (s1 = s0) as -> by congruence.
  assert (Hid2 : session_id s2 = k).
  { destruct Hs2 as [-> | [_ ->]]; exact Hid. }
  rewrite Hid2 in Hrun.
  eexists _, _, _, s2. split; [exact Hrun |].
  split; [cbn; apply lookup_insert_eq |].
  split; [exact Hs2 |].
  split; [cbn; congruence |].
  intros other Hother. cbn. rewrite lookup_insert_ne by congruence.
  now rewrite Hsessions2, Hsynced1, Hsessions1.
Qed.

Lemma application_known_cookie_witness :
  let stored := {| session_id := "a1"; amount_of_viewed_pages := 3 |} in
  let w := set_sessions (shelf_open (<["a1" := stored]> ∅)) example_world in
  exists w' status body s',
    application "/text" scenario_view (scenario_cookie "a1") w =
      (w', Ok (status,
               [("Content-Type", "text/html");
                ("Set-Cookie", "session_id=a1")],
               [body])) /\
    live (sessions w') !! "a1" = Some s'.
Proof.
  intros stored w.
  destruct (application_known_cookie "/text" scenario_view
              (scenario_cookie "a1") w "a1" stored)
    as (w' & status & body & s' & Hrun & Hstored & _).
  - query_dict_literal.
  - query_dict_literal.
  - split; [split; reflexivity |]. split.
    + apply map_Forall_insert_2; [reflexivity | apply map_Forall_empty].
    + apply map_Forall_insert_2; [reflexivity | apply map_Forall_empty].
  - reflexivity.
  - reflexivity.
  - exists w', status, body, s'. split; [exact Hrun | exact Hstored].
Defined.



Lemma take_one_insert_other (d : gmap string value) (k key : string) v :
  k <> key ->
  take_one_or_None (<[k := v]> d) key = take_one_or_None d key.
Proof.
  intros Hne. unfold take_one_or_None, dict_get.
  now rewrite lookup_insert_ne.
Qed.

(** A view by a session that has used up its views. *)
Lemma index_refuses (request_get_data : request) (w : world) (r : loc)
    (s : SessionModel) :
  request_get_data !! "SESSION" = Some (VSession r) ->
  heap w !! r = Some s ->
  amount_of_viewed_pages s > 3 ->
  exists body,
    TextController.index controller request_get_data w
      = (w, Ok (200, body)) /\
    contains "Too many articles reviewed." body = true.
Proof.
  intros Hsession Hlive Hmany. eexists. split.
  - rewrite (index_blocked controller request_get_data w r s Hsession Hlive
               Hmany).
    f_equal.
    apply respond_index_context;
      [apply mapM_format_li_texts | reflexivity | reflexivity].
  - unfold page. apply contains_app_r. apply contains_app_l.
    do 6 apply contains_app_r. apply contains_head.
Qed.

(** X15: the gate holds from request to request.  For a /text request with
    the cookie of a stored session whose record says n viewed pages: when
    n > 3 the answer is 200 OK with the error message and the record stays
    at n; when n <= 3 and the title of the request is stored with a
    non-empty content, the answer is 200 OK with that content and the
    record says n + 1 afterwards. *)
Theorem application_gate (query cookies : gmap string value) (w : world)
    (k : string) (s0 : SessionModel) :
  well_formed w ->
  take_one_or_None cookies "session_id" = VStr k ->
  live (sessions w) !! k = Some s0 ->
  (amount_of_viewed_pages s0 > 3 ->
     exists w' headers body,
       application "/text" query cookies w
         = (w', Ok ("200 OK", headers, [body])) /\
       contains "Too many articles reviewed." body = true /\
       live (sessions w') !! k = Some s0 /\
       docs w' = docs w) /\
  (amount_of_viewed_pages s0 <= 3 ->
   forall t c,
     take_one_or_None query "title" = VStr t ->
     live (docs w) !! t = Some (VStr c) -> c <> EmptyString ->
     exists w' headers body,
       application "/text" query cookies w
         = (w', Ok ("200 OK", headers, [body])) /\
       contains c body = true /\
       live (sessions w') !! k = Some (viewed_once_more s0) /\
       docs w' = docs w).
Proof.
  intros ((_ & Hsynced) & Hkeyed & _) Hcookie Hstored.
  pose proof (map_Forall_lookup_1 _ _ _ _ Hkeyed Hstored) as Hid.
  cbn beta in Hid.
  set (r := fresh (dom (heap w))).
  set (w1 := set_heap (<[r := s0]> (heap w)) w).
  assert (Hcreate :
    SessionManager.get_or_create (take_one_or_None cookies "session_id")
      (set_sessions (shelf_open (durable (sessions w))) w) = (w1, Ok r)).
  { rewrite (init_synced w Hsynced), Hcookie.
    apply get_or_create_stored. cbn [shelf_get]. now rewrite Hstored. }
  assert (Hlive1 : heap w1 !! r = Some s0) by apply lookup_insert_eq.
  assert (Hsession : <["SESSION" := VSession r]> query !! "SESSION"
                     = Some (VSession r)) by apply lookup_insert_eq.
  split.
  - intros Hmany.
    destruct (index_refuses _ w1 r s0 Hsession Hlive1 Hmany)
      as (body & Hindex & Hshown).
    eexists _, _, body.
    split; [apply (application_with_route "/text" query cookies w w1 w1 r
                     200 body s0 Hcreate Hindex Hlive1) |].
    split; [exact Hshown |].
    split; [cbn; rewrite Hid; apply lookup_insert_eq | reflexivity].
  - intros Hfew t c Htitle Hin Hne.
    destruct (index_shows_content (<["SESSION" := VSession r]> query) w1 r s0
                t c Hsession Hlive1 Hfew)
      as (body & Hindex & Hshown);
      [now rewrite take_one_insert_other | exact Hin | exact Hne |].
    eexists _, _, body.
    split; [apply (application_with_route "/text" query cookies w w1 _ r
                     200 body (viewed_once_more s0) Hcreate Hindex);
            cbn; apply lookup_insert_eq |].
    split; [exact Hshown |].
    split; [cbn; rewrite Hid; apply lookup_insert_eq | reflexivity].
Qed.

Lemma application_gate_witness :
  let stored n := {| session_id := "a1"; amount_of_viewed_pages := n |} in
  let w n := set_sessions (shelf_open (<["a1" := stored n]> ∅))
               example_world in
  (exists w' headers body,
     application "/text" scenario_view (scenario_cookie "a1") (w 4)
       = (w', Ok ("200 OK", headers, [body])) /\
     live (sessions w') !! "a1" = Some (stored 4)) /\
  (exists w' headers body,
     application "/text" scenario_view (scenario_cookie "a1") (w 3)
       = (w', Ok ("200 OK", headers, [body])) /\
     contains "Bar" body = true /\
     live (sessions w') !! "a1" = Some (stored 4)).
Proof.
  intros stored w.
  assert (Hwf : forall n, well_formed (w n)).
  { intros n. split; [split; reflexivity |]. split.
    - apply map_Forall_insert_2; [reflexivity | apply map_Forall_empty].
    - apply map_Forall_insert_2; [reflexivity | apply map_Forall_empty]. }
  split.
  - destruct (application_gate scenario_view (scenario_cookie "a1") (w 4)
                "a1" (stored 4) (Hwf 4) eq_refl eq_refl) as [Hblocked _].
    destruct (Hblocked ltac:(cbn; lia))
      as (w' & headers & body & Hrun & _ & Hrecord & _).
    exists w', headers, body. split; [exact Hrun | exact Hrecord].
  - destruct (application_gate scenario_view (scenario_cookie "a1") (w 3)
                "a1" (stored 3) (Hwf 3) eq_refl eq_refl) as [_ Hopen].
    destruct (Hopen ltac:(cbn; lia) "Foo" "Bar" eq_refl eq_refl
                ltac:(discriminate))
      as (w' & headers & body & Hrun & Hshown & Hrecord & _).
    exists w', headers, body. split; [exact Hrun |].
    split; [exact Hshown | exact Hrecord].
Defined.

(** ** parse_cookies *)

Lemma free_of_app (c : ascii) (a b : string) :
  free_of c (a +:+ b) = free_of c a && free_of c b.
Proof.
  induction a as [| x a IH]; [reflexivity |].
  change (String x a +:+ b) with (String x (a +:+ b)).
  cbn [free_of]. rewrite IH. apply andb_assoc.
Qed.

Lemma str_split_free (c : ascii) (s : string) :
  free_of c s = true -> str_split c s = [s].
Proof.
  induction s as [| x s IH]; [reflexivity |].
  cbn [free_of str_split]. intros Hfree.
  apply andb_true_iff in Hfree as [Hx Hs].
  apply negb_true_iff in Hx. rewrite Hx. now rewrite (IH Hs).
Qed.

Lemma str_split_app (c : ascii) (a rest : string) :
  free_of c a = true ->
  str_split c (a +:+ String c rest) = a :: str_split c rest.
Proof.
  induction a as [| x a IH].
  - intros _. change (EmptyString +:+ String c rest) with (String c rest).
    cbn [str_split]. now rewrite Ascii.eqb_refl.
  - change (String x a +:+ String c rest)
      with (String x (a +:+ String c rest)).
    cbn [free_of str_split]. intros Hfree.
    apply andb_true_iff in Hfree as [Hx Ha].
    apply negb_true_iff in Hx. rewrite Hx. now rewrite (IH Ha).
Qed.

Lemma str_split_pair (k v : string) :
  plain_pair (k, v) ->
  str_split "=" (k +:+ "=" +:+ v) = [k; v] /\
  free_of ";" (k +:+ "=" +:+ v) = true.
Proof.
  intros (Hk1 & Hk2 & Hv1 & Hv2). cbn in *. split.
  - change ("=" +:+ v) with (String "=" v).
    rewrite (str_split_app "=" k v Hk2). now rewrite (str_split_free "=" v).
  - rewrite !free_of_app, Hk1, Hv1. reflexivity.
Qed.

Lemma str_split_cookie_header (l : list (string * string)) :
  l <> [] -> Forall plain_pair l ->
  str_split ";" (cookie_header l)
    = map (fun '(k, v) => k +:+ "=" +:+ v) l.
Proof.
  induction l as [| [k v] rest IH]; [congruence |].
  intros _ Hplain. apply Forall_cons in Hplain as [Hpair Hrest].
  destruct (str_split_pair k v Hpair) as [_ Hfree].
  destruct rest as [| p rest].
  - cbn. now apply str_split_free.
  - unfold cookie_header in *.
    change (join ";" (map _ ((k, v) :: p :: rest)))
      with ((k +:+ "=" +:+ v)
            +:+ String ";"
                  (join ";" (map (fun '(k, v) => k +:+ "=" +:+ v)
                                 (p :: rest)))).
    rewrite (str_split_app ";" _ _ Hfree).
    rewrite IH; [reflexivity | discriminate | exact Hrest].
Qed.

Lemma cookie_pairs_split (l : list (string * string)) :
  Forall plain_pair l ->
  map (fun x => map strip (str_split "=" x))
      (map (fun '(k, v) => k +:+ "=" +:+ v) l)
  = map (fun '(k, v) => [strip k; strip v]) l.
Proof.
  induction 1 as [| [k v] rest Hpair _ IH]; [reflexivity |].
  cbn [map]. destruct (str_split_pair k v Hpair) as [-> _].
  now rewrite IH.
Qed.

Lemma dict_of_lists_pairs (l : list (string * string)) :
  forall i d,
    dict_of_lists i (map (fun '(k, v) => [strip k; strip v]) l) d
    = Done (fold_left (fun d '(k, v) => <[strip k := VStr (strip v)]> d) l d).
Proof.
  induction l as [| [k v] rest IH]; intros i d; [reflexivity |].
  cbn [map dict_of_lists fold_left]. apply IH.
Qed.

Lemma fold_insert_other (l : list (string * string)) :
  forall (d : gmap string value) key,
    key ∉ map (fun p => strip (fst p)) l ->
    fold_left (fun d '(k, v) => <[strip k := VStr (strip v)]> d) l d !! key
    = d !! key.
Proof.
  induction l as [| [k v] rest IH]; intros d key Hnotin; [reflexivity |].
  cbn [map fst] in Hnotin. apply not_elem_of_cons in Hnotin as [Hne Hrest].
  cbn [fold_left]. rewrite (IH _ key Hrest).
  apply lookup_insert_ne. congruence.
Qed.

(** X16: parse_cookies reads back a header written as k1=v1;k2=v2;...
    from pairs without [;] and [=]: it gives the dictionary of the pairs
    with keys and values stripped of surrounding white space, a later pair
    replacing an earlier one of the same key. *)
Theorem parse_cookies_round_trip (environ : gmap string string)
    (l : list (string * string)) :
  l <> [] -> Forall plain_pair l ->
  exists cookies,
    parse_cookies (<["HTTP_COOKIE" := cookie_header l]> environ)
      = Done cookies /\
    cookies
      = fold_left (fun d '(k, v) => <[strip k := VStr (strip v)]> d) l ∅ /\
    (forall key, key ∉ map (fun p => strip (fst p)) l ->
       cookies !! key = None) /\
    (forall before k v after,
       l = (before ++ (k, v) :: after)%list ->
       strip k ∉ map (fun p => strip (fst p)) after ->
       cookies !! strip k = Some (VStr (strip v)) /\
       take_one_or_None cookies (strip k) = VStr (strip v)).
Proof.
  intros Hne Hplain. eexists. split.
  { unfold parse_cookies. rewrite lookup_insert_eq.
    rewrite (str_split_cookie_header l Hne Hplain).
    rewrite (cookie_pairs_split l Hplain). apply dict_of_lists_pairs. }
  split; [reflexivity |].
  split.
  { intros key Hnotin. now rewrite fold_insert_other. }
  intros before k v after -> Hlast.
  assert (Hlookup :
    fold_left (fun d '(k, v) => <[strip k := VStr (strip v)]> d)
      (before ++ (k, v) :: after)%list (∅ : gmap string value) !! strip k
    = Some (VStr (strip v))).
  { rewrite fold_left_app. cbn [fold_left].
    rewrite (fold_insert_other after _ _ Hlast). apply lookup_insert_eq. }
  split; [exact Hlookup |].
  unfold take_one_or_None, dict_get. now rewrite Hlookup.
Qed.

Lemma parse_cookies_round_trip_witness :
  exists cookies,
    parse_cookies
      (<["HTTP_COOKIE" := "lang = en ;session_id=abc; lang=fr"]> ∅)
      = Done cookies /\
    take_one_or_None cookies "session_id" = VStr "abc" /\
    take_one_or_None cookies "lang" = VStr "fr".
Proof.
  destruct (parse_cookies_round_trip ∅
              [("lang ", " en "); ("session_id", "abc"); (" lang", "fr")])
    as (cookies & Hrun & _ & _ & Hlast).
  - discriminate.
  - repeat constructor.
  - exists cookies. split; [exact Hrun |]. split.
    + apply (Hlast [("lang ", " en ")] "session_id" "abc" [(" lang", "fr")]);
        [reflexivity |].
      intros Hin. apply list_elem_of_In in Hin. cbn in Hin.
      intuition discriminate.
    + apply (Hlast [("lang ", " en "); ("session_id", "abc")] " lang" "fr" []);
        [reflexivity | apply not_elem_of_nil].
Defined.

Lemma dict_of_lists_wrong_length (l : list (list string)) :
  forall i d j x,
    l !! j = Some x -> length x <> 2%nat ->
    (forall j' x', (j' < j)%nat -> l !! j' = Some x' -> length x' = 2%nat) ->
    dict_of_lists i l d = Fault (WrongLength (i + j) (length x)).
Proof.
  induction l as [| y rest IH]; intros i d j x Hj Hlen Hbefore;
    [discriminate |].
  destruct j as [| j].
  - injection Hj as ->. rewrite Nat.add_0_r.
    destruct x as [| a [| b [| c x]]]; cbn in *; try reflexivity.
    congruence.
  - assert (Hy : length y = 2%nat)
      by (apply (Hbefore 0%nat y); [lia | reflexivity]).
    destruct y as [| a [| b [| c y]]]; try discriminate.
    cbn [dict_of_lists].
    rewrite (IH (S i) _ j x Hj Hlen).
    + f_equal. f_equal. lia.
    + intros j' x' Hlt Hx'. apply (Hbefore (S j') x'); [lia | exact Hx'].
Qed.

(** X17: parse_cookies stops at a header it cannot take apart.  Without
    HTTP_COOKIE in the environ there is no dictionary.  With it, the first
    piece between semicolons that does not have exactly one [=] (an empty
    piece, a piece without [=], a value with a [=] in it) stops [dict] at
    the index of that piece, with the number of its parts. *)
Theorem parse_cookies_rejects (environ : gmap string string) :
  (environ !! "HTTP_COOKIE" = None ->
     parse_cookies environ = Fault (MissingKey "HTTP_COOKIE")) /\
  (forall header i piece,
     environ !! "HTTP_COOKIE" = Some header ->
     str_split ";" header !! i = Some piece ->
     length (str_split "=" piece) <> 2%nat ->
     (forall j earlier, (j < i)%nat ->
        str_split ";" header !! j = Some earlier ->
        length (str_split "=" earlier) = 2%nat) ->
     parse_cookies environ
       = Fault (WrongLength i (length (str_split "=" piece)))).
Proof.
  split.
  - intros Hnone. unfold parse_cookies. now rewrite Hnone.
  - intros header i piece Hheader Hpiece Hlen Hbefore.
    unfold parse_cookies. rewrite Hheader.
    rewrite (dict_of_lists_wrong_length _ 0 ∅ i
               (map strip (str_split "=" piece))).
    + now rewrite length_map.
    + rewrite list_lookup_fmap, Hpiece. reflexivity.
    + now rewrite length_map.
    + intros j x Hlt Hx. rewrite list_lookup_fmap in Hx.
      destruct (str_split ";" header !! j) as [earlier |] eqn:Hj;
        [| discriminate].
      injection Hx as <-. rewrite length_map. now apply (Hbefore j).
Qed.

Lemma parse_cookies_rejects_witness :
  parse_cookies (<["HTTP_COOKIE" := "session_id=abc;token=eA=="]> ∅)
    = Fault (WrongLength 1 4) /\
  parse_cookies (<["HTTP_COOKIE" := "session_id=abc;"]> ∅)
    = Fault (WrongLength 1 1) /\
  parse_cookies (<["HTTP_COOKIE" := EmptyString]> ∅)
    = Fault (WrongLength 0 1).
Proof.
  split; [| split].
  - apply (proj2 (parse_cookies_rejects _) "session_id=abc;token=eA=="
             1%nat "token=eA=="); try reflexivity.
    + cbn. lia.
    + intros [| j] earlier Hlt Hj; [| lia]. now injection Hj as <-.
  - apply (proj2 (parse_cookies_rejects _) "session_id=abc;"
             1%nat EmptyString); try reflexivity.
    + cbn. lia.
    + intros [| j] earlier Hlt Hj; [| lia]. now injection Hj as <-.
  - apply (proj2 (parse_cookies_rejects _) EmptyString 0%nat EmptyString);
      try reflexivity.
    + cbn. lia.
    + intros j earlier Hlt. lia.
Defined.

(** *** Stripped strings *)

Lemma lstrip_idempotent (s : string) : lstrip (lstrip s) = lstrip s.
Proof.
  induction s as [| a s IH]; [reflexivity |].
  cbn [lstrip]. destruct (is_space a) eqn:Ha; [exact IH |].
  cbn [lstrip]. now rewrite Ha.
Qed.

Lemma rstrip_idempotent (s : string) : rstrip (rstrip s) = rstrip s.
Proof.
  induction s as [| a s IH]; [reflexivity |].
  cbn [rstrip]. destruct (rstrip s) as [| b kept] eqn:Hs.
  - destruct (is_space a) eqn:Ha; [reflexivity |].
    cbn [rstrip]. now rewrite Ha.
  - change (rstrip (String a (String b kept)))
      with (match rstrip (String b kept) with
            | EmptyString =>
                if is_space a then EmptyString else String a EmptyString
            | kept' => String a kept'
            end).
    now rewrite IH.
Qed.

Lemma rstrip_tail (a : ascii) (s : string) :
  rstrip (String a s) = String a s -> rstrip s = s.
Proof.
  cbn [rstrip]. destruct (rstrip s) as [| b kept].
  - destruct (is_space a); [discriminate |]. now injection 1 as <-.
  - now injection 1 as <-.
Qed.

Lemma lstrip_keeps_rstripped (s : string) :
  rstrip s = s -> rstrip (lstrip s) = lstrip s.
Proof.
  induction s as [| a s IH]; [reflexivity |]. intros Hs.
  cbn [lstrip]. destruct (is_space a); [| exact Hs].
  apply IH. now apply rstrip_tail with a.
Qed.

Lemma strip_idempotent (s : string) : strip (strip s) = strip s.
Proof.
  unfold strip.
  rewrite (lstrip_keeps_rstripped (rstrip s) (rstrip_idempotent s)).
  apply lstrip_idempotent.
Qed.

Lemma dict_of_lists_stripped (l : list (list string)) :
  forall i d cookies,
    Forall (Forall (fun s => strip s = s)) l ->
    stripped_dict d ->
    dict_of_lists i l d = Done cookies ->
    stripped_dict cookies.
Proof.
  induction l as [| x rest IH]; intros i d cookies Hl Hd Hrun.
  - now injection Hrun as <-.
  - apply Forall_cons in Hl as [Hx Hrest].
    destruct x as [| k [| v [| c x]]]; try discriminate.
    cbn [dict_of_lists] in Hrun.
    apply (IH (S i) (<[k := VStr v]> d) cookies Hrest); [| exact Hrun].
    apply Forall_cons in Hx as [Hk Hv]. apply Forall_cons in Hv as [Hv _].
    apply map_Forall_insert_2; [| exact Hd]. split; eauto.
Qed.

Lemma parse_cookies_stripped environ cookies :
  parse_cookies environ = Done cookies -> stripped_dict cookies.
Proof.
  unfold parse_cookies.
  destruct (environ !! "HTTP_COOKIE") as [header |]; [| discriminate].
  apply dict_of_lists_stripped; [| apply map_Forall_empty].
  apply Forall_fmap. apply Forall_forall. intros piece _. cbn.
  apply Forall_fmap. apply Forall_forall. intros part _. cbn.
  apply strip_idempotent.
Qed.

Lemma stripped_dict_query (d : gmap string value) :
  stripped_dict d -> query_dict d.
Proof.
  intros Hd. unfold query_dict.
  eapply map_Forall_impl; [exact Hd |].
  intros k v (_ & s & -> & _). now right.
Qed.

(** X18: whenever parse_cookies gives a dictionary, every key is a string
    without white space at either end and every value is such a string
    (never a list), so take_one_or_None gives None or a string for every
    cookie name. *)
Theorem parse_cookies_gives_stripped_strings (environ : gmap string string)
    (cookies : gmap string value) :
  parse_cookies environ = Done cookies ->
  (forall k v, cookies !! k = Some v ->
     strip k = k /\ exists s, v = VStr s /\ strip s = s) /\
  (forall name,
     take_one_or_None cookies name = VNone \/
     exists s, take_one_or_None cookies name = VStr s /\ strip s = s).
Proof.
  intros Hrun. pose proof (parse_cookies_stripped environ cookies Hrun) as Hd.
  split.
  - intros k v Hk. exact (map_Forall_lookup_1 _ _ _ _ Hd Hk).
  - intros name. unfold take_one_or_None, dict_get.
    destruct (cookies !! name) as [v |] eqn:Hname; [| now left].
    destruct (map_Forall_lookup_1 _ _ _ _ Hd Hname) as (_ & s & -> & Hs).
    right. now exists s.
Qed.

Lemma parse_cookies_gives_stripped_strings_witness :
  exists s,
    take_one_or_None (<["session_id" := VStr "abc"]> ∅) "session_id"
      = VStr s /\
    strip s = s.
Proof.
  assert (Hrun : parse_cookies (<["HTTP_COOKIE" := " session_id = abc "]> ∅)
                 = Done (<["session_id" := VStr "abc"]> ∅))
    by (vm_compute; reflexivity).
  destruct (parse_cookies_gives_stripped_strings _ _ Hrun) as [_ Hnames].
  destruct (Hnames "session_id") as [Hnone | Hstring];
    [discriminate | exact Hstring].
Defined.

(** ** The entry point from the environ *)

(** X19: the entry point reads the path, the query and the cookies before
    it does anything else: when one of them fails, nothing has been
    written and no session has been made; a request without a Cookie
    header fails in this way.  When the three are there and the cookie
    header can be taken apart, a well-formed state answers the request and
    stays well-formed, for every parse_qs that gives strings or lists of
    strings. *)
Theorem application_environ_faults_or_serves
    (parse_qs : string -> gmap string value)
    (environ : gmap string string) (w : world) :
  (forall f,
     snd (application_environ parse_qs environ w) = Fault f ->
     fst (application_environ parse_qs environ w) = w) /\
  (forall path query,
     environ !! "PATH_INFO" = Some path ->
     environ !! "QUERY_STRING" = Some query ->
     environ !! "HTTP_COOKIE" = None ->
     application_environ parse_qs environ w
       = (w, Fault (MissingKey "HTTP_COOKIE"))) /\
  (forall path query cookies,
     (forall s, query_dict (parse_qs s)) ->
     environ !! "PATH_INFO" = Some path ->
     environ !! "QUERY_STRING" = Some query ->
     parse_cookies environ = Done cookies ->
     well_formed w ->
     exists w' status headers body,
       application_environ parse_qs environ w
         = (w', Done (Ok (status, headers, [body]))) /\
       well_formed w').
Proof.
  repeat apply conj.
  - intros f. unfold application_environ, parse_http_get_data.
    destruct (environ !! "PATH_INFO"); [| reflexivity].
    destruct (environ !! "QUERY_STRING"); [| reflexivity].
    destruct (parse_cookies environ); [| reflexivity].
    destruct (application _ _ _ w). discriminate.
  - intros path query Hpath Hquery Hcookie.
    unfold application_environ, parse_http_get_data, parse_cookies.
    now rewrite Hpath, Hquery, Hcookie.
  - intros path query cookies Hqs Hpath Hquery Hcookies Hwf.
    unfold application_environ, parse_http_get_data.
    rewrite Hpath, Hquery, Hcookies.
    destruct (application_answered path (parse_qs query) cookies w)
      as (w' & status & headers & body & Hrun & Hwf');
      [apply Hqs
      | apply stripped_dict_query; now apply parse_cookies_stripped with environ
      | exact Hwf |].
    rewrite Hrun. eauto 10.
Qed.

Lemma application_environ_faults_or_serves_witness :
  let parse_qs : string -> gmap string value := fun _ => scenario_view in
  let first_visit : gmap string string :=
    <["PATH_INFO" := "/text"]> (<["QUERY_STRING" := "title=Foo"]> ∅) in
  let next_visit : gmap string string :=
    <["HTTP_COOKIE" := "session_id=a1"]> first_visit in
  application_environ parse_qs first_visit example_world
    = (example_world, Fault (MissingKey "HTTP_COOKIE")) /\
  exists w' status headers body,
    application_environ parse_qs next_visit example_world
      = (w', Done (Ok (status, headers, [body]))) /\
    well_formed w'.
Proof.
  intros parse_qs first_visit next_visit. split.
  - apply (proj1 (proj2 (application_environ_faults_or_serves parse_qs
                           first_visit example_world))
             "/text" "title=Foo"); reflexivity.
  - apply (proj2 (proj2 (application_environ_faults_or_serves parse_qs
                           next_visit example_world))
             "/text" "title=Foo" (<["session_id" := VStr "a1"]> ∅)).
    + intros s. query_dict_literal.
    + reflexivity.
    + reflexivity.
    + vm_compute. reflexivity.
    + split; [split; reflexivity |]. split.
      * apply map_Forall_empty.
      * apply map_Forall_insert_2; [reflexivity | apply map_Forall_empty].
Defined.

(** ** A context rendered twice *)

Lemma error_block_not_empty (e : string) : error_block e <> EmptyString.
Proof. discriminate. Qed.

(** X20: TextIndexView reads the error from the context it has written
    to, so a context that is rendered a second time gets its error block
    wrapped in a second one; without an error the second rendering gives
    the same page and leaves the context as the first one left it. *)
Theorem render_twice (context : gmap string value) (all current : value)
    (texts : list value) (lis : list string) (c e : string) :
  context !! "all" = Some all -> iterate all = Ok texts ->
  mapM format_li texts = Ok lis ->
  context !! "current" = Some current -> render_content current = Ok c ->
  context !! "error" = Some (VStr e) ->
  let once := @render TextIndexView context in
  let twice := @render TextIndexView (fst once) in
  (e = EmptyString ->
     snd once = Ok (page EmptyString c (join nl lis)) /\
     snd twice = snd once /\ fst twice = fst once) /\
  (e <> EmptyString ->
     snd once = Ok (page (error_block e) c (join nl lis)) /\
     snd twice = Ok (page (error_block (error_block e)) c (join nl lis))).
Proof.
  intros Hall Hiter Hlis Hcur Hc Herr once twice. subst once twice.
  change (@render TextIndexView) with TextIndexView_render.
  split.
  - intros ->.
    rewrite (TextIndexView_render_ok context all texts lis current c
               (VStr EmptyString) EmptyString Hall Hiter Hlis Hcur Hc Herr
               eq_refl).
    cbn [fst snd]. unfold rendered_context. cbn [truthy String.eqb negb].
    rewrite (TextIndexView_render_ok _ all texts lis current c
               (VStr EmptyString) EmptyString);
      try (ctx_lookup; first [assumption | reflexivity]).
    cbn [fst snd]. unfold rendered_context. cbn [truthy String.eqb negb].
    split; [reflexivity |]. split; [reflexivity |].
    apply map_eq. intros k.
    destruct (decide (k = "content")) as [-> | Hcontent];
      [now rewrite !lookup_insert_eq |].
    destruct (decide (k = "titles")) as [-> | Htitles];
      repeat first [ rewrite lookup_insert_eq
                   | rewrite lookup_insert_ne by congruence ];
      reflexivity.
  - intros Hne. pose proof (truthy_VStr e Hne) as Htrue.
    assert (He : render_error (VStr e) = Ok (error_block e)).
    { unfold render_error. rewrite Htrue. reflexivity. }
    rewrite (TextIndexView_render_ok context all texts lis current c
               (VStr e) (error_block e) Hall Hiter Hlis Hcur Hc Herr He).
    cbn [fst snd]. unfold rendered_context. rewrite Htrue.
    split; [reflexivity |].
    rewrite (TextIndexView_render_ok _ all texts lis current c
               (VStr (error_block e)) (error_block (error_block e)));
      try (ctx_lookup; first [assumption | reflexivity]).
Qed.

Lemma render_twice_witness :
  let context := index_context [] VNone "Too many articles reviewed." in
  snd (@render TextIndexView (fst (@render TextIndexView context)))
  = Ok (page (error_block (error_block "Too many articles reviewed."))
             "What do you want read?" EmptyString).
Proof.
  intros context.
  destruct (render_twice context (VList []) VNone [] []
              "What do you want read?" "Too many articles reviewed."
              eq_refl eq_refl eq_refl eq_refl eq_refl eq_refl)
    as [_ Hwrapped].
  apply Hwrapped. discriminate.
Defined.

(** ** Requests without a session *)

(** X21: index reads the session before anything else: on a request
    dictionary without the key SESSION it raises KeyError, and on one that
    holds something else than a session there it raises AttributeError, in
    both cases with the state as it was; so does the path /text of the
    wired router.  add and the path / do not read the key. *)
Theorem index_needs_session (self : TextController.t)
    (request_get_data : request) (w : world) :
  (request_get_data !! "SESSION" = None ->
     TextController.index self request_get_data w = (w, Raise KeyError) /\
     Router.route router "/text" request_get_data w = (w, Raise KeyError)) /\
  (forall v,
     request_get_data !! "SESSION" = Some v ->
     (forall r, v <> VSession r) ->
     TextController.index self request_get_data w
       = (w, Raise AttributeError)) /\
  (forall v,
     TextController.add self (<["SESSION" := v]> request_get_data) w
       = TextController.add self (delete "SESSION" request_get_data) w /\
     Router.route router "/" (delete "SESSION" request_get_data) w
       = (w, Ok (200, "Index HI!"))).
Proof.
  repeat apply conj.
  - intros Hnone.
    change (Router.route router "/text" request_get_data w)
      with (TextController.index controller request_get_data w).
    split; unfold TextController.index, dict_getitem; run;
      now rewrite Hnone.
  - intros v Hsome Hother. unfold TextController.index, dict_getitem. run.
    rewrite Hsome. run.
    destruct v; try reflexivity. now destruct (Hother r).
  - intros v. split; [| reflexivity].
    unfold TextController.add.
    rewrite !(take_one_insert_other _ "SESSION") by discriminate.
    unfold take_one_or_None, dict_get.
    now rewrite !lookup_delete_ne by discriminate.
Qed.

Lemma index_needs_session_witness :
  TextController.index controller scenario_view example_world
    = (example_world, Raise KeyError) /\
  TextController.index controller
    (<["SESSION" := VStr "a1"]> scenario_view) example_world
    = (example_world, Raise AttributeError).
Proof.
  split.
  - apply (proj1 (index_needs_session controller scenario_view example_world)).
    reflexivity.
  - apply (proj1 (proj2 (index_needs_session controller
                           (<["SESSION" := VStr "a1"]> scenario_view)
                           example_world)) (VStr "a1")).
    + reflexivity.
    + discriminate.
Defined.

(** ** The first visit *)

(** C5: the visitor without a session cookie, at the entry point.  A
    request without a Cookie header has no key HTTP_COOKIE in its environ;
    application parses the cookies (line 293) before it calls
    get_or_create (line 294), and parse_cookies raises KeyError: the request
    is not answered, no uuid is drawn and no session is made.  get_or_create
    is not at fault: given what take_one_or_None finds in a dictionary
    without cookies, it makes the session with the next uuid and counter 0;
    and the same request sent with a Cookie header that names no session is
    answered with that new session in Set-Cookie. *)
Theorem first_visit_without_cookie_header
    (parse_qs : string -> gmap string value)
    (environ : gmap string string) (w : world) (path query : string) :
  environ !! "PATH_INFO" = Some path ->
  environ !! "QUERY_STRING" = Some query ->
  environ !! "HTTP_COOKIE" = None ->
  application_environ parse_qs environ w
    = (w, Fault (MissingKey "HTTP_COOKIE")) /\
  (exists w' r,
     SessionManager.get_or_create (take_one_or_None ∅ "session_id") w
       = (w', Ok r) /\
     heap w' !! r = Some (new_session w) /\
     amount_of_viewed_pages (new_session w) = 0 /\
     live (sessions w') !! uuids w (uuid_calls w) = Some (new_session w)) /\
  (forall header cookies,
     (forall s, query_dict (parse_qs s)) -> well_formed w ->
     parse_cookies (<["HTTP_COOKIE" := header]> environ) = Done cookies ->
     take_one_or_None cookies "session_id" = VNone ->
     exists w' status body s',
       application_environ parse_qs (<["HTTP_COOKIE" := header]> environ) w
         = (w', Done (Ok (status,
                          [("Content-Type", "text/html");
                           ("Set-Cookie",
                            "session_id=" +:+ uuids w (uuid_calls w))],
                          [body]))) /\
       live (sessions w') !! uuids w (uuid_calls w) = Some s' /\
       (s' = new_session w \/
        path = "/text" /\ s' = viewed_once_more (new_session w))).
Proof.
  intros Hpath Hquery Hcookie. split; [| split].
  - unfold application_environ, parse_http_get_data, parse_cookies.
    now rewrite Hpath, Hquery, Hcookie.
  - assert (Hnone : take_one_or_None (∅ : gmap string value) "session_id"
                    = VNone) by reflexivity.
    rewrite Hnone, (get_or_create_missing w VNone eq_refl).
    eexists _, _. split; [reflexivity |].
    split; [cbn; apply lookup_insert_eq |].
    split; [reflexivity |].
    cbn. apply lookup_insert_eq.
  - intros header cookies Hqs Hwf Hcookies Hnone.
    unfold application_environ, parse_http_get_data.
    rewrite !lookup_insert_ne by discriminate.
    rewrite Hpath, Hquery, Hcookies.
    destruct (application_answer path (parse_qs query) cookies w)
      as (w1 & r & s1 & w2 & code & body & s2 & _ & _ & Hcase & Hs2
          & _ & _ & _ & _ & _ & _ & Hrun);
      [apply Hqs
      | apply stripped_dict_query;
        now apply parse_cookies_stripped
          with (<["HTTP_COOKIE" := header]> environ)
      | exact Hwf |].
    destruct Hcase as [(k & Hk & _) | (_ & -> & _)]; [congruence |].
    assert (Hid2 : session_id s2 = uuids w (uuid_calls w))
      by (destruct Hs2 as [-> | [_ ->]]; reflexivity).
    rewrite Hrun, Hid2.
    eexists _, _, _, s2. split; [reflexivity |].
    split; [| exact Hs2].
    cbn. rewrite <- Hid2. apply lookup_insert_eq.
Qed.

Lemma first_visit_without_cookie_header_witness :
  let parse_qs : string -> gmap string value := fun _ => scenario_view in
  let environ : gmap string string :=
    <["PATH_INFO" := "/text"]> (<["QUERY_STRING" := "title=Foo"]> ∅) in
  application_environ parse_qs environ example_world
    = (example_world, Fault (MissingKey "HTTP_COOKIE")) /\
  exists w' status body,
    application_environ parse_qs (<["HTTP_COOKIE" := "lang=en"]> environ)
      example_world
      = (w', Done (Ok (status,
                       [("Content-Type", "text/html");
                        ("Set-Cookie", "session_id=uuid-0")],
                       [body]))).
Proof.
  intros parse_qs environ.
  destruct (first_visit_without_cookie_header parse_qs environ example_world
              "/text" "title=Foo" eq_refl eq_refl eq_refl)
    as (Hfault & _ & Hheader).
  split; [exact Hfault |].
  destruct (Hheader "lang=en" (<["lang" := VStr "en"]> ∅))
    as (w' & status & body & s' & Hrun & _).
  - intros s. query_dict_literal.
  - split; [split; reflexivity |]. split.
    + apply map_Forall_empty.
    + apply map_Forall_insert_2; [reflexivity | apply map_Forall_empty].
  - vm_compute. reflexivity.
  - reflexivity.
  - exists w', status, body. exact Hrun.
Defined.
